(** * Verification of [.github/scripts/mcp_analyzer.py]

    A shallow embedding of the submodule analyzer: the risk classifier
    ([SubmoduleAnalyzer._analyze_risk_level]), the aggregator
    ([SubmoduleAnalyzer.analyze_submodules]) and the report composer
    ([SubmoduleAnalyzer._generate_pr_content]), followed by the properties
    proved about them.

    Modelling conventions.
    - A Python [str] is a [string]; the characters are the code units of the
      text.  Case mapping and white space follow Python on the ASCII range;
      code units from 128 upwards are neither letters nor white space here.
    - A Python [int] counter is a [nat] (counters only grow from 0).
    - A JSON object read with [dict.get(key, default)] is a record of
      [option] fields, or a [gmap] when the keys are data.
    - A [KeyError] of a dictionary subscript is [None] in an [option].
    - The git subprocess and the file system are the variables of a section:
      the analyzer only reads from them. *)

From Stdlib Require Import String Ascii List Arith Bool Lia DecimalString.
From stdpp Require Import gmap strings list.

Open Scope string_scope.
Open Scope list_scope.
Open Scope nat_scope.

(** ** Python string operations *)

Module Py.

Definition LF : ascii := ascii_of_nat 10.

Definition isupper (c : ascii) : bool :=
  let n := nat_of_ascii c in (65 <=? n) && (n <=? 90).

Definition islower (c : ascii) : bool :=
  let n := nat_of_ascii c in (97 <=? n) && (n <=? 122).

Definition iscased (c : ascii) : bool := isupper c || islower c.

(** [str.isspace] on one character: TAB, LF, VT, FF, CR, FS, GS, RS, US and
    the space. *)
Definition isspace (c : ascii) : bool :=
  let n := nat_of_ascii c in
  ((9 <=? n) && (n <=? 13)) || ((28 <=? n) && (n <=? 32)).

Definition lower_char (c : ascii) : ascii :=
  if isupper c then ascii_of_nat (nat_of_ascii c + 32) else c.

Definition upper_char (c : ascii) : ascii :=
  if islower c then ascii_of_nat (nat_of_ascii c - 32) else c.

(** [s.lower()] *)
Fixpoint lower (s : string) : string :=
  match s with
  | EmptyString => EmptyString
  | String c s' => String (lower_char c) (lower s')
  end.

(** [s.upper()] *)
Fixpoint upper (s : string) : string :=
  match s with
  | EmptyString => EmptyString
  | String c s' => String (upper_char c) (upper s')
  end.

(** [s.title()]: a cased character is upper-cased after an uncased one (or at
    the start) and lower-cased after a cased one. *)
Fixpoint title_from (previous_is_cased : bool) (s : string) : string :=
  match s with
  | EmptyString => EmptyString
  | String c s' =>
      String (if previous_is_cased then lower_char c else upper_char c)
             (title_from (iscased c) s')
  end.

Definition title (s : string) : string := title_from false s.

(** [s.startswith(p)] *)
Fixpoint startswith (p s : string) : bool :=
  match p, s with
  | EmptyString, _ => true
  | String _ _, EmptyString => false
  | String a p', String b s' => Ascii.eqb a b && startswith p' s'
  end.

(** [needle in hay]: substring test; the empty string is in every string. *)
Fixpoint contains (needle hay : string) : bool :=
  startswith needle hay
  || match hay with
     | EmptyString => false
     | String _ hay' => contains needle hay'
     end.

(** [s[:n]] *)
Fixpoint slice_to (n : nat) (s : string) : string :=
  match n, s with
  | O, _ => EmptyString
  | S _, EmptyString => EmptyString
  | S n', String c s' => String c (slice_to n' s')
  end.

Fixpoint lstrip (s : string) : string :=
  match s with
  | EmptyString => EmptyString
  | String c s' => if isspace c then lstrip s' else s
  end.

Fixpoint rstrip (s : string) : string :=
  match s with
  | EmptyString => EmptyString
  | String c s' =>
      match rstrip s' with
      | EmptyString => if isspace c then EmptyString else String c EmptyString
      | r => String c r
      end
  end.

(** [s.strip()] *)
Definition strip (s : string) : string := rstrip (lstrip s).

(** [s.split(sep)] for a one-character separator: never the empty list. *)
Fixpoint split (sep : ascii) (s : string) : list string :=
  match s with
  | EmptyString => [EmptyString]
  | String c s' =>
      if Ascii.eqb c sep then EmptyString :: split sep s'
      else match split sep s' with
           | x :: xs => String c x :: xs
           | [] => [String c EmptyString]
           end
  end.

(** [sep.join(parts)] *)
Definition join (sep : string) (parts : list string) : string :=
  String.concat sep parts.

(** Truthiness of a [str]: [bool(s)]. *)
Definition truthy (s : string) : bool :=
  match s with EmptyString => false | String _ _ => true end.

(** [str(n)] for a non-negative [int], as an f-string formats it. *)
Definition str_of_nat (n : nat) : string :=
  NilZero.string_of_uint (Nat.to_uint n).

(** Characters of a string, for statements about its content. *)
Fixpoint chars (s : string) : list ascii :=
  match s with
  | EmptyString => []
  | String c s' => c :: chars s'
  end.

(** [any(c.isupper() for c in s)] *)
Definition has_upper (s : string) : bool := existsb isupper (chars s).

(** [Path(p).name] for a POSIX path: the last component that is neither
    empty nor [.]; the empty string when there is none. *)
Definition path_name (p : string) : string :=
  List.last
    (List.filter (fun seg => negb (String.eqb seg "" || String.eqb seg "."))
                 (split "/"%char p)) "".

End Py.

(** ** Data model *)

Module CommitInfo.
Record t := mk {
  hash : string;
  message : string;
  author : string;
  date : string;
  files_changed : list string
}.
End CommitInfo.

Module SubmoduleAnalysis.
Record t := mk {
  name : string;
  path : string;
  old_commit : string;
  new_commit : string;
  commits_count : nat;
  commits : list CommitInfo.t;
  risk_level : string;
  change_type : string;
  breaking_changes : bool;
  suggested_reviewers : list string
}.
End SubmoduleAnalysis.

Module AnalysisResult.
Record t := mk {
  summary : string;
  submodules : list SubmoduleAnalysis.t;
  total_commits : nat;
  overall_risk : string;
  suggested_reviewers : list string;
  pr_title : string;
  pr_body : string
}.
End AnalysisResult.

(** The configuration ([self.config]): every key may be missing, the code
    reads each of them with [dict.get] and a default. *)
Module Config.

(** An entry of ["submodules"]. *)
Record submodule := mk_submodule {
  reviewers : option (list string);
  critical : option bool;
  breaking_change_patterns : option (list string)
}.

(** The value of ["risk_keywords"]; the ["low"] tier is never read. *)
Record keywords := mk_keywords {
  high : option (list string);
  medium : option (list string)
}.

Record t := mk {
  submodules : option (gmap string submodule);
  default_reviewers : option (list string);
  risk_keywords : option keywords;
  breaking_patterns : option (list string)
}.

(** [{}] read as a submodule entry. *)
Definition empty_submodule : submodule := mk_submodule None None None.

(** [{}] read as the keyword table. *)
Definition empty_keywords : keywords := mk_keywords None None.

(** [self.config.get("submodules", {}).get(submodule_name, {})] *)
Definition submodule_config (cfg : t) (submodule_name : string) : submodule :=
  default empty_submodule (default ∅ (submodules cfg) !! submodule_name).

(** The configuration [_load_config] returns when the file is missing. *)
Definition fallback : t :=
  mk (Some ∅)
     (Some ["remr11"])
     (Some (mk_keywords
              (Some ["security"; "auth"; "database"; "migration"; "breaking"])
              (Some ["api"; "config"; "deps"; "dependency"; "feature"])))
     (Some ["BREAKING"; "breaking:"; "!:"; "feat!:"]).

End Config.

(** ** The risk classifier: [_analyze_risk_level] *)

(** The three locals the loop over the commits updates. *)
Record risk_state := mk_risk_state {
  high_risk_count : nat;
  medium_risk_count : nat;
  has_breaking_changes : bool
}.

(** What [_analyze_risk_level] reads from the configuration before the
    loop. *)
Definition is_critical (cfg : Config.t) (submodule_name : string) : bool :=
  default false (Config.critical (Config.submodule_config cfg submodule_name)).

Definition breaking_patterns_of (cfg : Config.t) (submodule_name : string)
  : list string :=
  default (default ["BREAKING"; "breaking:"; "!:"] (Config.breaking_patterns cfg))
          (Config.breaking_change_patterns
             (Config.submodule_config cfg submodule_name)).

Definition high_keywords (cfg : Config.t) : list string :=
  default [] (Config.high (default Config.empty_keywords (Config.risk_keywords cfg))).

Definition medium_keywords (cfg : Config.t) : list string :=
  default [] (Config.medium (default Config.empty_keywords (Config.risk_keywords cfg))).

(** [for x in xs: if test(x): ...; break]: whether the body of the [if] runs
    (it runs at the first hit, and the loop stops there). *)
Fixpoint for_break (test : string -> bool) (xs : list string) : bool :=
  match xs with
  | [] => false
  | x :: xs' => if test x then true else for_break test xs'
  end.

(** The test of the first inner loop: [pattern.lower() in message_lower]. *)
Definition pattern_hits (message_lower pattern : string) : bool :=
  Py.contains (Py.lower pattern) message_lower.

(** The test of the keyword loops: [keyword in message_lower]. *)
Definition keyword_hits (message_lower keyword : string) : bool :=
  Py.contains keyword message_lower.

(** First inner loop of the body: the breaking-change patterns. *)
Definition detect_breaking (patterns : list string) (message_lower : string)
                           (st : risk_state) : risk_state :=
  if for_break (pattern_hits message_lower) patterns
  then mk_risk_state (S (high_risk_count st)) (medium_risk_count st) true
  else st.

(** Second inner loop with its [else] clause: the high keywords, and the
    medium keywords when no high keyword hit. *)
Definition count_keywords (high medium : list string) (message_lower : string)
                          (st : risk_state) : risk_state :=
  if for_break (keyword_hits message_lower) high
  then mk_risk_state (S (high_risk_count st)) (medium_risk_count st)
                     (has_breaking_changes st)
  else if for_break (keyword_hits message_lower) medium
  then mk_risk_state (high_risk_count st) (S (medium_risk_count st))
                     (has_breaking_changes st)
  else st.

(** One iteration of [for commit in commits]. *)
Definition risk_step (patterns high medium : list string)
                     (st : risk_state) (commit : CommitInfo.t) : risk_state :=
  let message_lower := Py.lower (CommitInfo.message commit) in
  count_keywords high medium message_lower
                 (detect_breaking patterns message_lower st).

Definition risk_init : risk_state := mk_risk_state 0 0 false.

(** The whole loop, from the initial values of the three locals. *)
Definition risk_loop (cfg : Config.t) (submodule_name : string)
                     (commits : list CommitInfo.t) : risk_state :=
  fold_left (risk_step (breaking_patterns_of cfg submodule_name)
                       (high_keywords cfg) (medium_keywords cfg))
            commits risk_init.

(** [any(word in c.message.lower() for c in commits)] *)
Definition any_message_contains (word : string) (commits : list CommitInfo.t)
  : bool :=
  existsb (fun c => Py.contains word (Py.lower (CommitInfo.message c))) commits.

Definition risk_level_of (st : risk_state) (critical : bool) : string :=
  if has_breaking_changes st || (0 <? high_risk_count st) then "high"
  else if (2 <? medium_risk_count st)
          || ((0 <? medium_risk_count st) && critical) then "medium"
  else "low".

Definition change_type_of (breaking : bool) (commits : list CommitInfo.t)
  : string :=
  if breaking then "breaking"
  else if any_message_contains "feat" commits then "feature"
  else if any_message_contains "fix" commits then "bugfix"
  else "maintenance".

Definition _analyze_risk_level (cfg : Config.t) (commits : list CommitInfo.t)
                               (submodule_name : string)
  : string * string * bool :=
  let st := risk_loop cfg submodule_name commits in
  (risk_level_of st (is_critical cfg submodule_name),
   change_type_of (has_breaking_changes st) commits,
   has_breaking_changes st).

(** ** The reviewer resolver: [_get_suggested_reviewers] *)

(** [submodule_config.get("reviewers", [])] *)
Definition reviewers_of (cfg : Config.t) (submodule_name : string) : list string :=
  default [] (Config.reviewers (Config.submodule_config cfg submodule_name)).

(** The set is built by [set.update] per analysis; [list(all_reviewers)]
    enumerates it in an order Python does not specify. *)
Definition _get_suggested_reviewers (cfg : Config.t)
    (submodule_analyses : list SubmoduleAnalysis.t) : list string :=
  let all_reviewers : gset string :=
    fold_left
      (fun acc analysis =>
         acc ∪ list_to_set (reviewers_of cfg (SubmoduleAnalysis.name analysis)))
      submodule_analyses
      (list_to_set (default [] (Config.default_reviewers cfg))) in
  elements all_reviewers.

(** ** The report composer: [_generate_pr_content] *)

(** [any(s.breaking_changes for s in submodules)] *)
Definition any_breaking (submodules : list SubmoduleAnalysis.t) : bool :=
  existsb SubmoduleAnalysis.breaking_changes submodules.

(** The two dictionary literals of the loop body. *)
Definition risk_emoji_table : gmap string string :=
  list_to_map [("high", "🔴"); ("medium", "🟡"); ("low", "🟢")].

Definition change_emoji_table : gmap string string :=
  list_to_map [("breaking", "💥"); ("feature", "✨"); ("bugfix", "🐛");
               ("maintenance", "🔧")].

Definition nl : string := String Py.LF EmptyString.

Definition pr_title_of (submodules : list SubmoduleAnalysis.t)
                       (total_commits : nat) : string :=
  match submodules with
  | [submodule] =>
      let title :=
        "🤖 Update " +:+ SubmoduleAnalysis.name submodule +:+ " ("
        +:+ Py.str_of_nat (SubmoduleAnalysis.commits_count submodule)
        +:+ " commits)" in
      if SubmoduleAnalysis.breaking_changes submodule
      then "💥 " +:+ title +:+ " - BREAKING CHANGES" else title
  | _ =>
      let title :=
        "🤖 Update " +:+ Py.str_of_nat (length submodules) +:+ " submodules ("
        +:+ Py.str_of_nat total_commits +:+ " commits)" in
      if any_breaking submodules
      then "💥 " +:+ title +:+ " - BREAKING CHANGES" else title
  end.

(** One line of the commit list. *)
Definition commit_line (commit : CommitInfo.t) : string :=
  "- `" +:+ CommitInfo.hash commit +:+ "` " +:+ CommitInfo.message commit
  +:+ " (" +:+ CommitInfo.author commit +:+ ")".

(** The lines appended under [if submodule.commits:]. *)
Definition recent_commits_lines (commits : list CommitInfo.t) : list string :=
  match commits with
  | [] => []
  | _ :: _ =>
      [nl +:+ "**Recent commits**:"]
      ++ map commit_line (take 5 commits)
      ++ (if 5 <? length commits
          then ["- ... and " +:+ Py.str_of_nat (length commits - 5)
                +:+ " more commits"]
          else [])
  end.

(** The lines one iteration of [for submodule in result.submodules] appends;
    [None] when one of the two subscripts raises [KeyError]. *)
Definition submodule_lines (submodule : SubmoduleAnalysis.t)
  : option (list string) :=
  risk_emoji ← risk_emoji_table !! SubmoduleAnalysis.risk_level submodule;
  change_emoji ← change_emoji_table !! SubmoduleAnalysis.change_type submodule;
  Some
    (["### " +:+ change_emoji +:+ " " +:+ SubmoduleAnalysis.name submodule;
      "- **Risk Level**: " +:+ risk_emoji +:+ " "
        +:+ Py.upper (SubmoduleAnalysis.risk_level submodule);
      "- **Change Type**: " +:+ Py.title (SubmoduleAnalysis.change_type submodule);
      "- **Commits**: " +:+ Py.str_of_nat (SubmoduleAnalysis.commits_count submodule);
      "- **From**: `" +:+ SubmoduleAnalysis.old_commit submodule
        +:+ "` → **To**: `" +:+ SubmoduleAnalysis.new_commit submodule +:+ "`"]
     ++ (if SubmoduleAnalysis.breaking_changes submodule
         then ["- ⚠️  **CONTAINS BREAKING CHANGES**"] else [])
     ++ recent_commits_lines (SubmoduleAnalysis.commits submodule)
     ++ [""]).

(** [body_parts] at the end of the function. *)
Definition body_parts_of (result : AnalysisResult.t) : option (list string) :=
  blocks ← mapM submodule_lines (AnalysisResult.submodules result);
  Some
    (["## 📊 Summary" +:+ nl +:+ nl +:+ AnalysisResult.summary result;
      "## 📦 Submodule Details" +:+ nl]
     ++ concat blocks
     ++ ["## ✅ Review Checklist" +:+ nl;
         "- [ ] Verify all submodule updates are expected";
         "- [ ] Check for breaking changes impact";
         "- [ ] Ensure CI/CD compatibility";
         "- [ ] Update documentation if needed"]
     ++ (if any_breaking (AnalysisResult.submodules result)
         then ["- [ ] 💥 **CRITICAL**: Review breaking changes carefully";
               "- [ ] Update dependent code if necessary"]
         else [])
     ++ [nl +:+ "---";
         "*🤖 Generated automatically by submodule-bot with AI analysis*"]).

(** Title and body; [None] stands for the [KeyError] of a badge lookup. *)
Definition _generate_pr_content (result : AnalysisResult.t)
  : option (string * string) :=
  let title := pr_title_of (AnalysisResult.submodules result)
                           (AnalysisResult.total_commits result) in
  body_parts ← body_parts_of result;
  Some (title, Py.join nl body_parts).

(** ** The aggregator: [analyze_submodules] *)

(** An element of [submodules_data["submodules"]]: ["path"] and
    ["new_commit"] are subscripted, ["old_commit"] is read with [get]. *)
Module SubmoduleInfo.
Record t := mk {
  path : string;
  new_commit : string;
  old_commit : option string
}.
End SubmoduleInfo.

(** The locals of the loop over the descriptors. *)
Record agg_state := mk_agg_state {
  submodule_analyses : list SubmoduleAnalysis.t;
  total_commits : nat
}.

Definition overall_risk_of (analyses : list SubmoduleAnalysis.t) : string :=
  if existsb SubmoduleAnalysis.breaking_changes analyses then "high"
  else if existsb (fun s => String.eqb (SubmoduleAnalysis.risk_level s) "high")
                  analyses then "high"
  else if existsb (fun s => String.eqb (SubmoduleAnalysis.risk_level s) "medium")
                  analyses then "medium"
  else "low".

(** [sum(1 for s in submodule_analyses if s.breaking_changes)] *)
Definition breaking_count_of (analyses : list SubmoduleAnalysis.t) : nat :=
  length (List.filter SubmoduleAnalysis.breaking_changes analyses).

Definition summary_of (analyses : list SubmoduleAnalysis.t) (total : nat)
  : string :=
  let breaking_count := breaking_count_of analyses in
  if 0 <? breaking_count
  then "🚨 Updated " +:+ Py.str_of_nat (length analyses)
       +:+ " submodule(s) with " +:+ Py.str_of_nat total
       +:+ " total commits. " +:+ Py.str_of_nat breaking_count
       +:+ " submodule(s) contain BREAKING CHANGES that require careful review."
  else "✅ Updated " +:+ Py.str_of_nat (length analyses)
       +:+ " submodule(s) with " +:+ Py.str_of_nat total
       +:+ " total commits. No breaking changes detected.".

(** [[c for c in lines if c.strip()]] *)
Definition non_blank (lines : list string) : list string :=
  List.filter (fun c => Py.truthy (Py.strip c)) lines.

Section Aggregator.

(** [Path(cwd).exists()] *)
Variable path_exists : string -> bool.

(** [subprocess.run(command, capture_output=True, text=True, cwd=cwd,
    check=True)]: the captured standard output, or [None] for
    [CalledProcessError]. *)
Variable subprocess_run : list string -> string -> option string.

Definition _run_git_command (command : list string) (cwd : string) : string :=
  if Py.truthy cwd && negb (path_exists cwd) then ""
  else match subprocess_run command cwd with
       | Some stdout => Py.strip stdout
       | None => ""
       end.

Definition _get_commit_info (commit_hash repo_path : string) : CommitInfo.t :=
  let commit_header :=
    _run_git_command ["git"; "show"; "--format=%H|%s|%an|%ai"; "-s"; commit_hash]
                     repo_path in
  let files_output :=
    _run_git_command ["git"; "show"; "--name-only"; "--format="; commit_hash]
                     repo_path in
  let files_changed :=
    if Py.truthy files_output then non_blank (Py.split Py.LF files_output)
    else [] in
  let unknown :=
    CommitInfo.mk (Py.slice_to 8 commit_hash) "Unknown" "Unknown" "" files_changed in
  if negb (Py.truthy commit_header) then unknown
  else match Py.split "|"%char commit_header with
       | h :: m :: a :: d :: _ =>
           CommitInfo.mk (Py.slice_to 8 h) m a d files_changed
       | _ => unknown
       end.

(** The old revision after the first [if] of the loop body; [None] is the
    [continue]. *)
Definition resolve_old_commit (info : SubmoduleInfo.t) : option string :=
  let old_commit := default "" (SubmoduleInfo.old_commit info) in
  if negb (Py.truthy old_commit) || String.eqb old_commit "unknown"
  then
    let old_commit :=
      _run_git_command ["git"; "rev-parse"; "HEAD@{1}"] (SubmoduleInfo.path info) in
    if negb (Py.truthy old_commit) then None else Some old_commit
  else Some old_commit.

(** [commit_hashes] of a range. *)
Definition commit_hashes_of (path old_commit new_commit : string) : list string :=
  Py.split Py.LF
    (_run_git_command
       ["git"; "rev-list"; "--reverse"; old_commit +:+ ".." +:+ new_commit] path).

(** [commits] and [commits_count] after the second [if] of the loop body. *)
Definition collect_commits (path old_commit new_commit : string)
  : list CommitInfo.t * nat :=
  if Py.truthy old_commit && negb (String.eqb old_commit new_commit)
  then
    let commit_hashes := commit_hashes_of path old_commit new_commit in
    let commits_count := length (non_blank commit_hashes) in
    (map (fun commit_hash => _get_commit_info (Py.strip commit_hash) path)
         (non_blank (take 10 commit_hashes)),
     commits_count)
  else ([], 0).

(** The analysis one descriptor yields, once its old revision is known. *)
Definition analysis_of (cfg : Config.t) (info : SubmoduleInfo.t)
                       (old_commit : string) : SubmoduleAnalysis.t :=
  let path := SubmoduleInfo.path info in
  let new_commit := SubmoduleInfo.new_commit info in
  let submodule_name := Py.path_name path in
  let '(commits, commits_count) := collect_commits path old_commit new_commit in
  let '(risk_level, change_type, breaking_changes) :=
    _analyze_risk_level cfg commits submodule_name in
  SubmoduleAnalysis.mk
    submodule_name path
    (if Py.truthy old_commit then Py.slice_to 8 old_commit else "unknown")
    (Py.slice_to 8 new_commit)
    commits_count commits risk_level change_type breaking_changes
    (reviewers_of cfg submodule_name).

(** One iteration of [for submodule_info in submodules_data.get(...)]. *)
Definition agg_step (cfg : Config.t) (st : agg_state) (info : SubmoduleInfo.t)
  : agg_state :=
  match resolve_old_commit info with
  | None => st
  | Some old_commit =>
      let analysis := analysis_of cfg info old_commit in
      mk_agg_state (submodule_analyses st ++ [analysis])
                   (total_commits st + SubmoduleAnalysis.commits_count analysis)
  end.

Definition agg_loop (cfg : Config.t) (infos : list SubmoduleInfo.t) : agg_state :=
  fold_left (agg_step cfg) infos (mk_agg_state [] 0).

(** [analyze_submodules]; the argument is
    [submodules_data.get("submodules", [])].  [None] stands for a [KeyError]
    raised while the body of the pull request is composed. *)
Definition analyze_submodules (cfg : Config.t) (infos : list SubmoduleInfo.t)
  : option AnalysisResult.t :=
  let st := agg_loop cfg infos in
  let analyses := submodule_analyses st in
  let result :=
    AnalysisResult.mk
      (summary_of analyses (total_commits st))
      analyses
      (total_commits st)
      (overall_risk_of analyses)
      (_get_suggested_reviewers cfg analyses)
      "" "" in
  '(title, body) ← _generate_pr_content result;
  Some (AnalysisResult.mk
          (AnalysisResult.summary result)
          (AnalysisResult.submodules result)
          (AnalysisResult.total_commits result)
          (AnalysisResult.overall_risk result)
          (AnalysisResult.suggested_reviewers result)
          title body).

(** The analysis a descriptor contributes, if it is not skipped. *)
Definition analysis_opt (cfg : Config.t) (info : SubmoduleInfo.t)
  : option SubmoduleAnalysis.t :=
  analysis_of cfg info <$> resolve_old_commit info.

(** The previous-revision lookup of the first [if] of the loop body. *)
Definition previous_revision (path : string) : string :=
  _run_git_command ["git"; "rev-parse"; "HEAD@{1}"] path.

End Aggregator.

(** ** Vocabulary of the statements

    The tests of the classifier's inner loops, read per commit. *)

(** Some breaking-change pattern is found in the commit's message. *)
Definition breaking_commit (patterns : list string) (c : CommitInfo.t) : bool :=
  existsb (pattern_hits (Py.lower (CommitInfo.message c))) patterns.

(** Some keyword of the list is found in the commit's message. *)
Definition keyword_commit (keywords : list string) (c : CommitInfo.t) : bool :=
  existsb (keyword_hits (Py.lower (CommitInfo.message c))) keywords.

(** The word is found in the commit's lower-cased message. *)
Definition mentions (word : string) (c : CommitInfo.t) : bool :=
  Py.contains word (Py.lower (CommitInfo.message c)).

(** The iteration as the specification words it (steps a to d of its
    algorithm): the keyword checks are skipped for a commit that holds a
    breaking marker.  Only compared with [risk_step], never used by it. *)
Definition spec_risk_step (patterns high medium : list string)
                          (st : risk_state) (commit : CommitInfo.t) : risk_state :=
  let message_lower := Py.lower (CommitInfo.message commit) in
  if for_break (pattern_hits message_lower) patterns
  then mk_risk_state (S (high_risk_count st)) (medium_risk_count st) true
  else if for_break (keyword_hits message_lower) high
  then mk_risk_state (S (high_risk_count st)) (medium_risk_count st)
                     (has_breaking_changes st)
  else if for_break (keyword_hits message_lower) medium
  then mk_risk_state (high_risk_count st) (S (medium_risk_count st))
                     (has_breaking_changes st)
  else st.

(** [sum(1 for x in xs if f(x))] *)
Definition count_if {A : Type} (f : A -> bool) (xs : list A) : nat :=
  length (List.filter f xs).

Definition nat_of_bool (b : bool) : nat := if b then 1 else 0.

(** The keys of the two badge tables. *)
Definition risk_levels : list string := ["high"; "medium"; "low"].
Definition change_types : list string :=
  ["breaking"; "feature"; "bugfix"; "maintenance"].

(** The configuration with its keyword lists replaced. *)
Definition with_keywords (cfg : Config.t) (high medium : list string) : Config.t :=
  Config.mk (Config.submodules cfg) (Config.default_reviewers cfg)
            (Some (Config.mk_keywords (Some high) (Some medium)))
            (Config.breaking_patterns cfg).

(** Inputs the examples below are run on. *)
Definition commit_with (message : string) : CommitInfo.t :=
  CommitInfo.mk "0a1b2c3d" message "dev" "2024-01-01 00:00:00 +0000" [].

(** A policy that marks the submodule [core] critical. *)
Definition critical_core : Config.t :=
  Config.mk (Some {[ "core" := Config.mk_submodule None (Some true) None ]})
            (Config.default_reviewers Config.fallback)
            (Config.risk_keywords Config.fallback)
            (Config.breaking_patterns Config.fallback).

(** A repository whose range [old..new] lists the given identifiers, oldest
    first; the message of a commit names its identifier. *)
Definition history_run (ids : list string) (command : list string)
                       (cwd : string) : option string :=
  match command with
  | ["git"; "rev-list"; "--reverse"; _] => Some (Py.join nl ids)
  | ["git"; "show"; "--format=%H|%s|%an|%ai"; "-s"; commit_hash] =>
      Some (commit_hash +:+ "|change " +:+ commit_hash +:+ "|dev|2024-01-01")
  | ["git"; "show"; "--name-only"; "--format="; _] => Some "README.md"
  | _ => None
  end.

(** A repository in which every git command fails. *)
Definition failing_run (command : list string) (cwd : string) : option string :=
  None.

Definition every_path (p : string) : bool := true.

Definition six_ids : list string := ["c1"; "c2"; "c3"; "c4"; "c5"; "c6"].

Definition twelve_ids : list string :=
  ["c01"; "c02"; "c03"; "c04"; "c05"; "c06";
   "c07"; "c08"; "c09"; "c10"; "c11"; "c12"].

(** The descriptor of an update of [libs/core] from [c0] to [tip]. *)
Definition core_update : SubmoduleInfo.t :=
  SubmoduleInfo.mk "libs/core" "tip" (Some "c0").

(** A descriptor without an old revision. *)
Definition orphan_update : SubmoduleInfo.t :=
  SubmoduleInfo.mk "libs/gone" "tip" None.

(** ** Vocabulary of the further properties *)

(** The severity order of the risk levels: low, medium, high. *)
Definition risk_rank (level : string) : nat :=
  if String.eqb level "high" then 2
  else if String.eqb level "medium" then 1
  else 0.

(** Two commits whose messages differ at most in the case of letters. *)
Definition same_message_modulo_case (c c' : CommitInfo.t) : Prop :=
  Py.lower (CommitInfo.message c) = Py.lower (CommitInfo.message c').

(** The descriptor's old revision can be determined. *)
Definition resolvable (path_exists : string -> bool)
    (subprocess_run : list string -> string -> option string)
    (info : SubmoduleInfo.t) : bool :=
  match resolve_old_commit path_exists subprocess_run info with
  | Some _ => true
  | None => false
  end.

(** The note under a list of more than five commits. *)
Definition more_commits_note (n : nat) : string :=
  "- ... and " +:+ Py.str_of_nat n +:+ " more commits".

(** [len(s)] *)
Definition str_len (s : string) : nat := String.length s.

(** The string holds no [|]. *)
Definition bar_free (s : string) : bool :=
  negb (existsb (fun c => Ascii.eqb c "|"%char) (Py.chars s)).

(** A repository that knows one commit, with the given header line. *)
Definition single_commit_run (header : string) (command : list string)
                             (cwd : string) : option string :=
  match command with
  | ["git"; "show"; "--format=%H|%s|%an|%ai"; "-s"; _] => Some header
  | ["git"; "show"; "--name-only"; "--format="; _] =>
      Some ("src/app.py" +:+ nl +:+ nl +:+ "README.md" +:+ nl)
  | _ => None
  end.

(** A policy with reviewers for two submodules. *)
Definition reviewed_policy : Config.t :=
  Config.mk
    (Some {[ "core" := Config.mk_submodule (Some ["alice"; "bob"]) None None;
             "docs" := Config.mk_submodule (Some ["bob"]) None None ]})
    (Some ["remr11"]) None None.

(** An analysis record with the given name and nothing else of note. *)
Definition analysis_named (name : string) : SubmoduleAnalysis.t :=
  SubmoduleAnalysis.mk name name "c0" "c1" 0 [] "low" "maintenance" false [].

(** The checklist item added for breaking changes. *)
Definition critical_item : string :=
  "- [ ] 💥 **CRITICAL**: Review breaking changes carefully".

(** The line is a checklist item that starts with the collision sign. *)
Definition is_critical_item (line : string) : bool :=
  Py.startswith "- [ ] 💥" line.

(** A line of [git rev-list]: it is not blank and holds no line feed. *)
Definition is_commit_id (id : string) : bool :=
  Py.truthy (Py.strip id)
  && negb (existsb (fun c => Ascii.eqb c Py.LF) (Py.chars id)).

(** The text is ASCII: every character is below 128. *)
Definition is_ascii (s : string) : bool :=
  forallb (fun c => nat_of_ascii c <? 128) (Py.chars s).

(** The text is white space only. *)
Definition all_space (s : string) : bool := forallb Py.isspace (Py.chars s).

(** The classifier's iteration with [str.lower] as a parameter: [risk_step]
    is [risk_step_with Py.lower]. *)
Definition pattern_hits_with (lower : string -> string)
                             (message_lower pattern : string) : bool :=
  Py.contains (lower pattern) message_lower.

Definition detect_breaking_with (lower : string -> string)
    (patterns : list string) (message_lower : string) (st : risk_state)
  : risk_state :=
  if for_break (pattern_hits_with lower message_lower) patterns
  then mk_risk_state (S (high_risk_count st)) (medium_risk_count st) true
  else st.

Definition risk_step_with (lower : string -> string)
    (patterns high medium : list string)
    (st : risk_state) (commit : CommitInfo.t) : risk_state :=
  let message_lower := lower (CommitInfo.message commit) in
  count_keywords high medium message_lower
                 (detect_breaking_with lower patterns message_lower st).



(** * Properties *)

(** ** Facts about the string operations *)

Module PyFacts.
Import Py.

Lemma lower_char_not_upper (c : ascii) : isupper (lower_char c) = false.
Proof. destruct c as [[] [] [] [] [] [] [] []]; reflexivity. Qed.

Lemma lower_upper_char (c : ascii) : lower_char (upper_char c) = lower_char c.
Proof. destruct c as [[] [] [] [] [] [] [] []]; reflexivity. Qed.

Lemma lower_lower_char (c : ascii) : lower_char (lower_char c) = lower_char c.
Proof. destruct c as [[] [] [] [] [] [] [] []]; reflexivity. Qed.

Lemma lower_upper (s : string) : lower (upper s) = lower s.
Proof.
  induction s as [|c s IH]; simpl; [reflexivity|].
  now rewrite lower_upper_char, IH.
Qed.

Lemma lower_lower (s : string) : lower (lower s) = lower s.
Proof.
  induction s as [|c s IH]; simpl; [reflexivity|].
  now rewrite lower_lower_char, IH.
Qed.

Lemma chars_lower (s : string) : chars (lower s) = map lower_char (chars s).
Proof. induction s as [|c s IH]; simpl; congruence. Qed.

(** No character of a lower-cased string is an upper-case letter. *)
Lemma lower_has_no_upper (s : string) (c : ascii) :
  In c (chars (lower s)) -> isupper c = false.
Proof.
  rewrite chars_lower, in_map_iff.
  intros (c0 & <- & _). apply lower_char_not_upper.
Qed.

Lemma startswith_chars (p s : string) (c : ascii) :
  startswith p s = true -> In c (chars p) -> In c (chars s).
Proof.
  revert s; induction p as [|a p IH]; intros [|b s]; simpl; try easy.
  rewrite andb_true_iff, Ascii.eqb_eq.
  intros [-> Hp] [->|Hc]; [now left|right; now apply IH].
Qed.

(** A substring only has characters of the string it is found in. *)
Lemma contains_chars (needle hay : string) (c : ascii) :
  contains needle hay = true -> In c (chars needle) -> In c (chars hay).
Proof.
  induction hay as [|b hay IH]; simpl.
  - rewrite orb_false_r. apply startswith_chars.
  - rewrite orb_true_iff. intros [Hs|Hc] Hin.
    + apply (startswith_chars _ _ _ Hs Hin).
    + right. now apply IH.
Qed.

Lemma upper_never_in_lower (keyword message : string) :
  has_upper keyword = true -> contains keyword (lower message) = false.
Proof.
  unfold has_upper. rewrite existsb_exists. intros (c & Hin & Hup).
  destruct (contains keyword (lower message)) eqn:E; [|reflexivity].
  pose proof (lower_has_no_upper _ _ (contains_chars _ _ _ E Hin)).
  congruence.
Qed.

Lemma contains_empty (hay : string) : contains "" hay = true.
Proof. destruct hay; reflexivity. Qed.

End PyFacts.

(** ** The classifier's loop *)

Lemma for_break_existsb (test : string -> bool) (xs : list string) :
  for_break test xs = existsb test xs.
Proof.
  induction xs as [|x xs IH]; simpl; [reflexivity|].
  rewrite IH. now destruct (test x).
Qed.

Section RiskLoop.

Variables patterns high medium : list string.

(** What one iteration does to the three locals, in terms of the three
    tests on the commit. *)
Lemma risk_step_effect (st : risk_state) (c : CommitInfo.t) :
  risk_step patterns high medium st c =
  mk_risk_state
    (high_risk_count st + nat_of_bool (breaking_commit patterns c)
     + nat_of_bool (keyword_commit high c))
    (medium_risk_count st
     + nat_of_bool (negb (keyword_commit high c) && keyword_commit medium c))
    (has_breaking_changes st || breaking_commit patterns c).
Proof.
  unfold risk_step, count_keywords, detect_breaking, breaking_commit,
    keyword_commit.
  rewrite !for_break_existsb.
  destruct st as [h m b]; simpl.
  destruct (existsb (pattern_hits _) patterns),
           (existsb (keyword_hits _) high),
           (existsb (keyword_hits _) medium);
    simpl; f_equal; try lia; destruct b; reflexivity.
Qed.

(** The loop invariant: the locals after the loop, from any start. *)
Lemma risk_fold_counts (commits : list CommitInfo.t) (st : risk_state) :
  fold_left (risk_step patterns high medium) commits st =
  mk_risk_state
    (high_risk_count st + count_if (breaking_commit patterns) commits
     + count_if (keyword_commit high) commits)
    (medium_risk_count st
     + count_if (fun c => negb (keyword_commit high c) && keyword_commit medium c)
                commits)
    (has_breaking_changes st || existsb (breaking_commit patterns) commits).
Proof.
  revert st. induction commits as [|c commits IH]; intros st.
  - destruct st as [h m b]; cbn. f_equal; try lia. now rewrite orb_false_r.
  - cbn [fold_left]. rewrite IH, risk_step_effect. unfold count_if. cbn.
    destruct (breaking_commit patterns c), (keyword_commit high c),
      (keyword_commit medium c); cbn; f_equal; try lia;
      now rewrite ?orb_true_r, ?orb_false_r.
Qed.

End RiskLoop.

Lemma risk_loop_counts (cfg : Config.t) (name : string)
                       (commits : list CommitInfo.t) :
  risk_loop cfg name commits =
  mk_risk_state
    (count_if (breaking_commit (breaking_patterns_of cfg name)) commits
     + count_if (keyword_commit (high_keywords cfg)) commits)
    (count_if (fun c => negb (keyword_commit (high_keywords cfg) c)
                        && keyword_commit (medium_keywords cfg) c) commits)
    (existsb (breaking_commit (breaking_patterns_of cfg name)) commits).
Proof. unfold risk_loop. now rewrite risk_fold_counts. Qed.

(** The values [_analyze_risk_level] can return. *)
Lemma risk_level_of_range (st : risk_state) (critical : bool) :
  In (risk_level_of st critical) risk_levels.
Proof.
  unfold risk_level_of, risk_levels.
  repeat match goal with |- context [if ?b then _ else _] => destruct b end;
    simpl; auto.
Qed.

Lemma change_type_of_range (breaking : bool) (commits : list CommitInfo.t) :
  In (change_type_of breaking commits) change_types.
Proof.
  unfold change_type_of, change_types.
  repeat match goal with |- context [if ?b then _ else _] => destruct b end;
    simpl; auto.
Qed.

(** ** Per-commit counting (C1) *)

(** C1, as stated, fails: a commit whose message holds a breaking marker is
    still run through the keyword scan.  With the built-in configuration the
    message [BREAKING: security fix] raises the high-risk counter by two. *)
Lemma C1_breaking_commit_counted_twice :
  ~ (forall (cfg : Config.t) (name : string) (st : risk_state) (c : CommitInfo.t),
        breaking_commit (breaking_patterns_of cfg name) c = true ->
        let st' := risk_step (breaking_patterns_of cfg name) (high_keywords cfg)
                             (medium_keywords cfg) st c in
        high_risk_count st' = S (high_risk_count st)
        /\ medium_risk_count st' = medium_risk_count st).
Proof.
  intros H.
  specialize (H Config.fallback "lib" risk_init
                (commit_with "BREAKING: security fix") eq_refl).
  destruct H as [H _]. vm_compute in H. discriminate H.
Qed.

(** C1 (amended): per commit, the marker scan adds one to the high-risk
    counter exactly when some marker is in the lower-cased message, and the
    keyword scan runs on every commit, marker or not: it adds one to the
    high-risk counter when some high keyword is in the message, otherwise one
    to the medium-risk counter when some medium keyword is.  Hence a commit
    raises the high-risk counter by at most two, and the keyword scan raises
    at most one of the two counters, by one. *)
Theorem C1_commit_counts (patterns high medium : list string)
                         (st : risk_state) (c : CommitInfo.t) :
  let st' := risk_step patterns high medium st c in
  let by_marker := nat_of_bool (breaking_commit patterns c) in
  let by_high := nat_of_bool (keyword_commit high c) in
  let by_medium :=
    nat_of_bool (negb (keyword_commit high c) && keyword_commit medium c) in
  high_risk_count st' = high_risk_count st + by_marker + by_high
  /\ medium_risk_count st' = medium_risk_count st + by_medium
  /\ has_breaking_changes st' = has_breaking_changes st || breaking_commit patterns c
  /\ by_marker <= 1
  /\ by_high + by_medium <= 1
  /\ high_risk_count st' <= high_risk_count st + 2.
Proof.
  cbv zeta. rewrite risk_step_effect. cbn [high_risk_count medium_risk_count
    has_breaking_changes].
  destruct (breaking_commit patterns c), (keyword_commit high c),
    (keyword_commit medium c); cbn; repeat split; lia.
Qed.

(** The second count of a breaking commit is not observable: run with the
    iteration of the specification, the loop ends with the same breaking flag
    and the same risk level. *)
Lemma double_count_unobservable (patterns high medium : list string)
    (commits : list CommitInfo.t) (critical : bool) :
  let st := fold_left (risk_step patterns high medium) commits risk_init in
  let st' := fold_left (spec_risk_step patterns high medium) commits risk_init in
  has_breaking_changes st = has_breaking_changes st'
  /\ risk_level_of st critical = risk_level_of st' critical.
Proof.
  cbv zeta.
  set (R := fun a b : risk_state =>
              has_breaking_changes a = has_breaking_changes b
              /\ (0 <? high_risk_count a) = (0 <? high_risk_count b)
              /\ (has_breaking_changes a = false ->
                  medium_risk_count a = medium_risk_count b)).
  assert (Hfold : forall a b, R a b ->
            R (fold_left (risk_step patterns high medium) commits a)
              (fold_left (spec_risk_step patterns high medium) commits b)).
  { induction commits as [|c cs IH]; intros a b Hab; [exact Hab|].
    cbn [fold_left]. apply IH.
    destruct Hab as (Hb & Hh & Hm), a as [h m f], b as [h' m' f'].
    cbn [has_breaking_changes high_risk_count medium_risk_count] in Hb, Hh, Hm.
    subst f'.
    unfold R, risk_step, spec_risk_step, detect_breaking, count_keywords.
    cbv zeta.
    set (message_lower := Py.lower (CommitInfo.message c)).
    destruct (for_break (pattern_hits message_lower) patterns),
             (for_break (keyword_hits message_lower) high),
             (for_break (keyword_hits message_lower) medium);
      cbn [has_breaking_changes high_risk_count medium_risk_count];
      repeat split; auto; try discriminate;
      intros Hf; f_equal; auto. }
  destruct (Hfold risk_init risk_init) as (Hb & Hh & Hm).
  { repeat split. }
  split; [exact Hb|].
  unfold risk_level_of. rewrite <- Hb, <- Hh.
  destruct (has_breaking_changes _) eqn:E; [reflexivity|].
  now rewrite (Hm eq_refl).
Qed.

(** ** Risk level (C2) *)

(** The classifier's read of the critical flag, on the configuration: the
    flag is set when ["submodules"] has an entry for the name whose
    ["critical"] is true. *)
Lemma is_critical_iff (cfg : Config.t) (name : string) :
  is_critical cfg name = true
  <-> exists subs entry,
        Config.submodules cfg = Some subs
        /\ subs !! name = Some entry
        /\ Config.critical entry = Some true.
Proof.
  unfold is_critical, Config.submodule_config. split.
  - destruct (Config.submodules cfg) as [subs|]; cbn [default from_option id].
    + destruct (subs !! name) as [entry|] eqn:E; cbn [default from_option id].
      * destruct (Config.critical entry) as [[|]|] eqn:Ec;
          cbn [default from_option id Config.critical Config.empty_submodule];
          try discriminate.
        intros _. exists subs, entry. auto.
      * discriminate.
    + rewrite lookup_empty. discriminate.
  - intros (subs & entry & -> & Hentry & Hc). cbn [default from_option id].
    rewrite Hentry. cbn [default from_option id]. rewrite Hc. reflexivity.
Qed.

(** C2: the risk level is "high" exactly when the breaking flag is set or
    the high-risk counter is positive; otherwise "medium" exactly when the
    medium-risk counter exceeds 2, or is positive for a submodule the policy
    marks critical; otherwise "low".  In particular one medium-keyword commit
    and no high-risk commit give "medium" for a critical submodule and "low"
    for another one. *)
Theorem C2_risk_level (cfg : Config.t) (commits : list CommitInfo.t)
                      (name : string) :
  let st := risk_loop cfg name commits in
  let risk_level := fst (fst (_analyze_risk_level cfg commits name)) in
  let marked_critical :=
    exists subs entry,
      Config.submodules cfg = Some subs
      /\ subs !! name = Some entry
      /\ Config.critical entry = Some true in
  let is_high := has_breaking_changes st = true \/ 0 < high_risk_count st in
  let is_medium :=
    2 < medium_risk_count st
    \/ (0 < medium_risk_count st /\ marked_critical) in
  (risk_level = "high" <-> is_high)
  /\ (risk_level = "medium" <-> ~ is_high /\ is_medium)
  /\ (risk_level = "low" <-> ~ is_high /\ ~ is_medium)
  /\ (count_if (keyword_commit (medium_keywords cfg)) commits = 1 ->
      count_if (keyword_commit (high_keywords cfg)) commits = 0 ->
      count_if (breaking_commit (breaking_patterns_of cfg name)) commits = 0 ->
      (marked_critical -> risk_level = "medium")
      /\ (~ marked_critical -> risk_level = "low")).
Proof.
  cbv zeta. unfold _analyze_risk_level. cbn [fst].
  pose proof (is_critical_iff cfg name) as Hcrit.
  split; [|split; [|split]].
  1-3: unfold risk_level_of;
       destruct (risk_loop cfg name commits) as [h m b];
       cbn [high_risk_count medium_risk_count has_breaking_changes];
       destruct b, (is_critical cfg name),
         (Nat.ltb_spec 0 h), (Nat.ltb_spec 2 m), (Nat.ltb_spec 0 m);
       cbn [orb andb]; intuition (discriminate || lia || reflexivity).
  intros Hm Hh Hb. rewrite risk_loop_counts. unfold risk_level_of.
  cbn [high_risk_count medium_risk_count has_breaking_changes].
  assert (Hnone : existsb (breaking_commit (breaking_patterns_of cfg name))
                          commits = false).
  { unfold count_if in Hb. apply length_zero_iff_nil in Hb.
    destruct (existsb _ commits) eqn:E; [|reflexivity].
    apply existsb_exists in E as (c & Hin & Hc).
    assert (In c (List.filter (breaking_commit (breaking_patterns_of cfg name))
                              commits)) as Hf by (apply filter_In; auto).
    rewrite Hb in Hf. destruct Hf. }
  assert (Hmed : count_if (fun c => negb (keyword_commit (high_keywords cfg) c)
                                     && keyword_commit (medium_keywords cfg) c)
                          commits = 1).
  { rewrite <- Hm. unfold count_if in *. f_equal.
    apply length_zero_iff_nil in Hh.
    clear Hm Hb Hnone. induction commits as [|c cs IH]; [reflexivity|].
    cbn in *.
    destruct (keyword_commit (high_keywords cfg) c); [discriminate|].
    cbn. now rewrite IH. }
  rewrite Hnone, Hb, Hh, Hmed. cbn.
  destruct (is_critical cfg name); split; try reflexivity.
  - intros Hnot. contradiction Hnot. now apply Hcrit.
  - intros Hyes. apply Hcrit in Hyes. discriminate Hyes.
Qed.

(** The single commit [update api docs]: "medium" for the submodule [core],
    which the policy marks critical, and "low" under the built-in policy,
    which marks none. *)
Lemma C2_risk_level_witness :
  fst (fst (_analyze_risk_level critical_core [commit_with "update api docs"] "core"))
  = "medium"
  /\ fst (fst (_analyze_risk_level Config.fallback [commit_with "update api docs"]
                                   "core"))
     = "low".
Proof.
  split.
  - apply (C2_risk_level critical_core [commit_with "update api docs"] "core");
      try (vm_compute; reflexivity).
    eexists. eexists. split; [reflexivity|].
    split; [apply lookup_singleton_eq|reflexivity].
  - apply (C2_risk_level Config.fallback [commit_with "update api docs"] "core");
      try (vm_compute; reflexivity).
    intros (subs & entry & Hsubs & Hentry & _).
    injection Hsubs as <-. rewrite lookup_empty in Hentry. discriminate Hentry.
Defined.

(** ** No commits (C6) *)

(** C6: on the empty list of commits the classifier returns risk level
    "low", change type "maintenance" and no breaking flag, whatever the
    submodule and the configuration. *)
Theorem C6_no_commits (cfg : Config.t) (name : string) :
  _analyze_risk_level cfg [] name = ("low", "maintenance", false).
Proof.
  unfold _analyze_risk_level, risk_loop. cbn [fold_left].
  unfold risk_level_of, change_type_of, risk_init. cbn.
  reflexivity.
Qed.

(** ** Change type (C7) *)

Lemma any_message_contains_iff (word : string) (commits : list CommitInfo.t) :
  any_message_contains word commits = true
  <-> exists c, In c commits /\ mentions word c = true.
Proof. unfold any_message_contains. now rewrite existsb_exists. Qed.

(** C7: the change type is "breaking" when the breaking flag is set;
    otherwise "feature" when some message contains "feat"; otherwise
    "bugfix" when some message contains "fix"; otherwise "maintenance".  The
    flag is set exactly when some commit holds a breaking marker, and a list
    that moves no risk counter can still be a "feature". *)
Theorem C7_change_type (cfg : Config.t) (commits : list CommitInfo.t)
                       (name : string) :
  let change_type := snd (fst (_analyze_risk_level cfg commits name)) in
  let breaking := snd (_analyze_risk_level cfg commits name) in
  let some_commit_mentions word :=
    exists c, In c commits /\ mentions word c = true in
  breaking = existsb (breaking_commit (breaking_patterns_of cfg name)) commits
  /\ (breaking = true -> change_type = "breaking")
  /\ (breaking = false -> some_commit_mentions "feat" -> change_type = "feature")
  /\ (breaking = false -> ~ some_commit_mentions "feat" ->
      some_commit_mentions "fix" -> change_type = "bugfix")
  /\ (breaking = false -> ~ some_commit_mentions "feat" ->
      ~ some_commit_mentions "fix" -> change_type = "maintenance")
  /\ (let quiet := [commit_with "feat: add widget"] in
      risk_loop Config.fallback "lib" quiet = risk_init
      /\ _analyze_risk_level Config.fallback quiet "lib" = ("low", "feature", false)).
Proof.
  cbv zeta. unfold _analyze_risk_level. cbn [fst snd].
  split; [now rewrite risk_loop_counts|].
  unfold change_type_of.
  destruct (has_breaking_changes (risk_loop cfg name commits)).
  - repeat split; intros; try discriminate; vm_compute; reflexivity.
  - pose proof (any_message_contains_iff "feat" commits) as Hfeat.
    pose proof (any_message_contains_iff "fix" commits) as Hfix.
    destruct (any_message_contains "feat" commits),
             (any_message_contains "fix" commits);
      (split; [discriminate|]);
      (split; [intros _ H; try reflexivity;
               apply Hfeat in H; discriminate H|]);
      (split; [intros _ Hn H; try reflexivity;
               solve [ exfalso; apply Hn, Hfeat; reflexivity
                     | apply Hfix in H; discriminate H ]|]);
      (split; [intros _ Hn Hm; try reflexivity;
               solve [ exfalso; apply Hn, Hfeat; reflexivity
                     | exfalso; apply Hm, Hfix; reflexivity ]|]);
      vm_compute; split; reflexivity.
Qed.

(** The three commits of the frontend-lib scenario, without the breaking
    one: the list classifies as a feature. *)
Lemma C7_change_type_witness :
  snd (fst (_analyze_risk_level Config.fallback
              [commit_with "fix: crash on load"; commit_with "feat: add widget"]
              "frontend-lib")) = "feature".
Proof.
  apply (C7_change_type Config.fallback
           [commit_with "fix: crash on load"; commit_with "feat: add widget"]
           "frontend-lib").
  - vm_compute. reflexivity.
  - exists (commit_with "feat: add widget"). split.
    + right. left. reflexivity.
    + vm_compute. reflexivity.
Defined.

(** ** Keywords with capital letters *)

Lemma keyword_commit_drop_upper (keywords : list string) (c : CommitInfo.t) :
  keyword_commit (List.filter (fun k => negb (Py.has_upper k)) keywords) c
  = keyword_commit keywords c.
Proof.
  unfold keyword_commit, keyword_hits.
  induction keywords as [|k ks IH]; [reflexivity|].
  cbn. destruct (Py.has_upper k) eqn:E; cbn.
  - now rewrite (PyFacts.upper_never_in_lower _ _ E).
  - now rewrite IH.
Qed.

(** ** The badge tables *)

Lemma risk_emoji_known (k : string) :
  In k risk_levels -> is_Some (risk_emoji_table !! k).
Proof.
  unfold risk_levels. cbn [In].
  intros [<-|[<-|[<-|[]]]]; vm_compute; eauto.
Qed.

Lemma change_emoji_known (k : string) :
  In k change_types -> is_Some (change_emoji_table !! k).
Proof.
  unfold change_types. cbn [In].
  intros [<-|[<-|[<-|[<-|[]]]]]; vm_compute; eauto.
Qed.

Lemma risk_emoji_unknown (k : string) :
  ~ In k risk_levels -> risk_emoji_table !! k = None.
Proof.
  intros Hk. unfold risk_emoji_table.
  apply not_elem_of_list_to_map. rewrite list_elem_of_In. exact Hk.
Qed.

Lemma change_emoji_unknown (k : string) :
  ~ In k change_types -> change_emoji_table !! k = None.
Proof.
  intros Hk. unfold change_emoji_table.
  apply not_elem_of_list_to_map. rewrite list_elem_of_In. exact Hk.
Qed.

Lemma submodule_lines_known (a : SubmoduleAnalysis.t) :
  In (SubmoduleAnalysis.risk_level a) risk_levels ->
  In (SubmoduleAnalysis.change_type a) change_types ->
  is_Some (submodule_lines a).
Proof.
  intros Hr Hc. unfold submodule_lines.
  destruct (risk_emoji_known _ Hr) as [r ->].
  destruct (change_emoji_known _ Hc) as [c ->].
  cbn. eauto.
Qed.

Lemma submodule_lines_unknown (a : SubmoduleAnalysis.t) :
  ~ In (SubmoduleAnalysis.risk_level a) risk_levels
  \/ ~ In (SubmoduleAnalysis.change_type a) change_types ->
  submodule_lines a = None.
Proof.
  unfold submodule_lines. intros [H|H].
  - now rewrite (risk_emoji_unknown _ H).
  - rewrite (change_emoji_unknown _ H).
    now destruct (risk_emoji_table !! _).
Qed.

(** The composer succeeds when every analysis has known badges. *)
Lemma generate_pr_content_known (result : AnalysisResult.t) :
  Forall (fun a => In (SubmoduleAnalysis.risk_level a) risk_levels
                   /\ In (SubmoduleAnalysis.change_type a) change_types)
         (AnalysisResult.submodules result) ->
  is_Some (_generate_pr_content result).
Proof.
  intros Hall. unfold _generate_pr_content, body_parts_of.
  destruct (mapM_is_Some_2 submodule_lines (AnalysisResult.submodules result))
    as [blocks ->].
  - eapply Forall_impl; [exact Hall|].
    intros a [Hr Hc]. now apply submodule_lines_known.
  - cbn. eauto.
Qed.

(** ** The aggregator's loop *)

Section AggregatorFacts.

Variable path_exists : string -> bool.
Variable subprocess_run : list string -> string -> option string.
Variable cfg : Config.t.

Local Abbreviation step := (agg_step path_exists subprocess_run cfg).
Local Abbreviation loop := (agg_loop path_exists subprocess_run cfg).
Local Abbreviation opt := (analysis_opt path_exists subprocess_run cfg).
Local Abbreviation analysis := (analysis_of path_exists subprocess_run cfg).
Local Abbreviation resolve := (resolve_old_commit path_exists subprocess_run).
Local Abbreviation collect := (collect_commits path_exists subprocess_run).
Local Abbreviation analyze :=
  (analyze_submodules path_exists subprocess_run cfg).

Lemma agg_step_opt (st : agg_state) (info : SubmoduleInfo.t) :
  step st info =
  match opt info with
  | None => st
  | Some a => mk_agg_state (submodule_analyses st ++ [a])
                           (total_commits st + SubmoduleAnalysis.commits_count a)
  end.
Proof.
  unfold agg_step, analysis_opt.
  now destruct (resolve info).
Qed.

(** The loop invariant: the analyses are those of the descriptors that are
    not skipped, in order, and the total is the sum of their counts. *)
Lemma agg_fold_spec (infos : list SubmoduleInfo.t) (st : agg_state) :
  fold_left step infos st =
  mk_agg_state
    (submodule_analyses st ++ omap opt infos)
    (total_commits st
     + sum_list_with SubmoduleAnalysis.commits_count (omap opt infos)).
Proof.
  revert st. induction infos as [|info infos IH]; intros st.
  - destruct st as [l n]; cbn. now rewrite app_nil_r, Nat.add_0_r.
  - cbn [fold_left]. rewrite IH, agg_step_opt. cbn [omap list_omap].
    destruct (opt info) as [a|]; [|reflexivity].
    cbn. rewrite <- app_assoc. f_equal. lia.
Qed.

Lemma agg_loop_spec (infos : list SubmoduleInfo.t) :
  loop infos =
  mk_agg_state
    (omap opt infos)
    (sum_list_with SubmoduleAnalysis.commits_count (omap opt infos)).
Proof. unfold agg_loop. now rewrite agg_fold_spec. Qed.

(** What the fields of an analysis are made of. *)
Lemma analysis_of_fields (info : SubmoduleInfo.t) (old_commit : string) :
  let a := analysis info old_commit in
  let collected :=
    collect (SubmoduleInfo.path info) old_commit
                    (SubmoduleInfo.new_commit info) in
  SubmoduleAnalysis.commits a = fst collected
  /\ SubmoduleAnalysis.commits_count a = snd collected
  /\ SubmoduleAnalysis.name a = Py.path_name (SubmoduleInfo.path info)
  /\ (SubmoduleAnalysis.risk_level a, SubmoduleAnalysis.change_type a,
      SubmoduleAnalysis.breaking_changes a)
     = _analyze_risk_level cfg (SubmoduleAnalysis.commits a)
                           (SubmoduleAnalysis.name a).
Proof.
  cbv zeta. unfold analysis_of.
  destruct (collect _ _ _) as [commits n].
  unfold _analyze_risk_level. cbn. auto.
Qed.

Lemma analysis_of_badges (info : SubmoduleInfo.t) (old_commit : string) :
  In (SubmoduleAnalysis.risk_level (analysis info old_commit)) risk_levels
  /\ In (SubmoduleAnalysis.change_type (analysis info old_commit)) change_types.
Proof.
  destruct (analysis_of_fields info old_commit) as (_ & _ & _ & H).
  unfold _analyze_risk_level in H. injection H as Hr Hc _.
  rewrite Hr, Hc. split.
  - apply risk_level_of_range.
  - apply change_type_of_range.
Qed.

Lemma agg_loop_badges (infos : list SubmoduleInfo.t) :
  Forall (fun a => In (SubmoduleAnalysis.risk_level a) risk_levels
                   /\ In (SubmoduleAnalysis.change_type a) change_types)
         (submodule_analyses (loop infos)).
Proof.
  rewrite agg_loop_spec. cbn [submodule_analyses].
  apply List.Forall_forall. intros a Ha.
  rewrite <- list_elem_of_In in Ha.
  apply list_elem_of_omap in Ha as (info & _ & Hopt).
  unfold analysis_opt in Hopt.
  destruct (resolve info) as [old|]; [|discriminate].
  injection Hopt as <-. apply analysis_of_badges.
Qed.

(** [analyze_submodules] returns a result on every input: the fields come
    from the loop, and composing the body raises no [KeyError]. *)
Lemma analyze_submodules_total (infos : list SubmoduleInfo.t) :
  exists result,
    analyze infos = Some result
    /\ AnalysisResult.submodules result = submodule_analyses (loop infos)
    /\ AnalysisResult.total_commits result = total_commits (loop infos)
    /\ AnalysisResult.overall_risk result
       = overall_risk_of (submodule_analyses (loop infos)).
Proof.
  unfold analyze_submodules.
  match goal with
  | |- context [_generate_pr_content ?r] =>
      destruct (generate_pr_content_known r (agg_loop_badges infos))
        as [[title body] ->]
  end.
  cbn. eexists. split; [reflexivity|]. cbn. auto.
Qed.

End AggregatorFacts.

(** ** Overall risk (C3) *)

Lemma existsb_risk_level (level : string) (analyses : list SubmoduleAnalysis.t) :
  existsb (fun s => String.eqb (SubmoduleAnalysis.risk_level s) level) analyses
  = true
  <-> exists a, In a analyses /\ SubmoduleAnalysis.risk_level a = level.
Proof.
  rewrite existsb_exists.
  split; intros (a & Hin & Ha); exists a; split; auto; now apply String.eqb_eq.
Qed.

(** C3: the overall risk is "high" when some analysis has the breaking flag
    or the risk level "high", otherwise "medium" when some analysis has the
    risk level "medium", otherwise "low"; a breaking flag alone makes it
    "high".  This is the [overall_risk] of every result. *)
Theorem C3_overall_risk (path_exists : string -> bool)
    (subprocess_run : list string -> string -> option string) :
  (forall analyses : list SubmoduleAnalysis.t,
      let some_high :=
        exists a, In a analyses
                  /\ (SubmoduleAnalysis.breaking_changes a = true
                      \/ SubmoduleAnalysis.risk_level a = "high") in
      let some_medium :=
        exists a, In a analyses /\ SubmoduleAnalysis.risk_level a = "medium" in
      (some_high -> overall_risk_of analyses = "high")
      /\ (~ some_high -> some_medium -> overall_risk_of analyses = "medium")
      /\ (~ some_high -> ~ some_medium -> overall_risk_of analyses = "low")
      /\ ((exists a, In a analyses /\ SubmoduleAnalysis.breaking_changes a = true)
          -> overall_risk_of analyses = "high"))
  /\ (forall (cfg : Config.t) (infos : list SubmoduleInfo.t),
         exists result,
           analyze_submodules path_exists subprocess_run cfg infos = Some result
           /\ AnalysisResult.overall_risk result
              = overall_risk_of (AnalysisResult.submodules result)).
Proof.
  split.
  - intros analyses. cbv zeta. unfold overall_risk_of.
    pose proof (existsb_exists SubmoduleAnalysis.breaking_changes analyses) as Hb.
    pose proof (existsb_risk_level "high" analyses) as Hh.
    pose proof (existsb_risk_level "medium" analyses) as Hm.
    destruct (existsb SubmoduleAnalysis.breaking_changes analyses);
      [|destruct (existsb _ analyses);
        [|destruct (existsb _ analyses)]];
      repeat split; intros; try reflexivity; exfalso;
      repeat match goal with
        | H : _ <-> _ |- _ => destruct H
        end;
      firstorder congruence.
  - intros cfg infos.
    destruct (analyze_submodules_total path_exists subprocess_run cfg infos)
      as (result & Hres & Hsub & _ & Hrisk).
    exists result. split; [exact Hres|]. now rewrite Hrisk, Hsub.
Qed.

(** One breaking analysis among the submodules of a run. *)
Lemma C3_overall_risk_witness :
  overall_risk_of
    [SubmoduleAnalysis.mk "docs" "docs" "c0" "c1" 0 [] "low" "maintenance" false [];
     SubmoduleAnalysis.mk "core" "libs/core" "c0" "c1" 1
       [commit_with "feat!: drop v1"] "high" "breaking" true []]
  = "high".
Proof.
  apply (proj1 (proj1 (C3_overall_risk every_path failing_run) _)).
  eexists. split; [right; left; reflexivity|]. left. reflexivity.
Defined.

(** ** Counting the commits of a range *)

Lemma non_blank_take_le (n : nat) (lines : list string) :
  length (non_blank (take n lines)) <= length (non_blank lines).
Proof.
  unfold non_blank. revert n.
  induction lines as [|x xs IH]; intros [|n]; cbn; try lia.
  specialize (IH n). destruct (Py.truthy (Py.strip x)); cbn; lia.
Qed.

Lemma non_blank_take_bound (n : nat) (lines : list string) :
  length (non_blank (take n lines)) <= n.
Proof.
  unfold non_blank.
  etransitivity; [apply List.filter_length_le|].
  rewrite length_take. lia.
Qed.

(** Twelve commits in the range: all twelve are counted, ten are examined. *)
Example C4_twelve_commits :
  let a := analysis_of every_path (history_run twelve_ids) Config.fallback
                       core_update "c0" in
  SubmoduleAnalysis.commits_count a = 12
  /\ length (SubmoduleAnalysis.commits a) = 10.
Proof. vm_compute. split; reflexivity. Qed.

(** ** Skipped descriptors (C8) *)

(** C8: a descriptor whose old revision is absent or "unknown", and whose
    previous-revision lookup returns nothing, is skipped: the loop state is
    unchanged by it, so the run is the run without it, which returns a
    result; the descriptors around it yield their analyses as before. *)
Theorem C8_unresolvable_skipped (path_exists : string -> bool)
    (subprocess_run : list string -> string -> option string)
    (cfg : Config.t) (before after : list SubmoduleInfo.t)
    (info : SubmoduleInfo.t) :
  SubmoduleInfo.old_commit info = None
  \/ SubmoduleInfo.old_commit info = Some "unknown" ->
  previous_revision path_exists subprocess_run (SubmoduleInfo.path info) = "" ->
  (forall st, agg_step path_exists subprocess_run cfg st info = st)
  /\ agg_loop path_exists subprocess_run cfg (before ++ info :: after)
     = agg_loop path_exists subprocess_run cfg (before ++ after)
  /\ submodule_analyses
       (agg_loop path_exists subprocess_run cfg (before ++ info :: after))
     = omap (analysis_opt path_exists subprocess_run cfg) before
       ++ omap (analysis_opt path_exists subprocess_run cfg) after
  /\ analyze_submodules path_exists subprocess_run cfg (before ++ info :: after)
     = analyze_submodules path_exists subprocess_run cfg (before ++ after)
  /\ is_Some (analyze_submodules path_exists subprocess_run cfg
                                 (before ++ info :: after)).
Proof.
  intros Hold Hprev.
  assert (Hnone : resolve_old_commit path_exists subprocess_run info = None).
  { unfold resolve_old_commit. fold (previous_revision path_exists subprocess_run
                                       (SubmoduleInfo.path info)).
    rewrite Hprev. destruct Hold as [-> | ->]; reflexivity. }
  assert (Hstep : forall st, agg_step path_exists subprocess_run cfg st info = st).
  { intros st. unfold agg_step. now rewrite Hnone. }
  assert (Hloop : agg_loop path_exists subprocess_run cfg (before ++ info :: after)
                  = agg_loop path_exists subprocess_run cfg (before ++ after)).
  { unfold agg_loop. rewrite !fold_left_app. cbn [fold_left].
    now rewrite Hstep. }
  split; [exact Hstep|]. split; [exact Hloop|]. split; [|split].
  - rewrite Hloop, agg_loop_spec. cbn [submodule_analyses]. apply omap_app.
  - unfold analyze_submodules. now rewrite Hloop.
  - destruct (analyze_submodules_total path_exists subprocess_run cfg
                (before ++ info :: after)) as (result & -> & _).
    eauto.
Qed.

(** A descriptor without old revision between two resolvable ones, in a
    repository where every git command fails. *)
Lemma C8_unresolvable_skipped_witness :
  analyze_submodules every_path failing_run Config.fallback
    ([core_update] ++ orphan_update :: [core_update])
  = analyze_submodules every_path failing_run Config.fallback
      ([core_update] ++ [core_update]).
Proof.
  apply (C8_unresolvable_skipped every_path failing_run Config.fallback
           [core_update] [core_update] orphan_update).
  - left. reflexivity.
  - vm_compute. reflexivity.
Defined.

(** ** Badge lookups (C9) *)

(** C9: every analysis the aggregator produces has a risk level among
    "high", "medium", "low" and a change type among "breaking", "feature",
    "bugfix", "maintenance", so both badge lookups succeed on it and the run
    returns a result; on an analysis with any other value the composer fails
    with the [KeyError] instead of skipping the badge. *)
Theorem C9_badges (path_exists : string -> bool)
    (subprocess_run : list string -> string -> option string)
    (cfg : Config.t) (infos : list SubmoduleInfo.t) :
  Forall (fun a =>
            In (SubmoduleAnalysis.risk_level a) ["high"; "medium"; "low"]
            /\ In (SubmoduleAnalysis.change_type a)
                  ["breaking"; "feature"; "bugfix"; "maintenance"]
            /\ is_Some (risk_emoji_table !! SubmoduleAnalysis.risk_level a)
            /\ is_Some (change_emoji_table !! SubmoduleAnalysis.change_type a)
            /\ is_Some (submodule_lines a))
         (submodule_analyses (agg_loop path_exists subprocess_run cfg infos))
  /\ is_Some (analyze_submodules path_exists subprocess_run cfg infos)
  /\ (forall (result : AnalysisResult.t) (a : SubmoduleAnalysis.t),
         In a (AnalysisResult.submodules result) ->
         ~ In (SubmoduleAnalysis.risk_level a) ["high"; "medium"; "low"]
         \/ ~ In (SubmoduleAnalysis.change_type a)
                 ["breaking"; "feature"; "bugfix"; "maintenance"] ->
         _generate_pr_content result = None).
Proof.
  split; [|split].
  - eapply Forall_impl; [apply agg_loop_badges|].
    intros a [Hr Hc]. cbv beta.
    auto 6 using risk_emoji_known, change_emoji_known, submodule_lines_known.
  - destruct (analyze_submodules_total path_exists subprocess_run cfg infos)
      as (result & -> & _). eauto.
  - intros result a Hin Hbad.
    unfold _generate_pr_content, body_parts_of.
    rewrite (mapM_None_2 submodule_lines (AnalysisResult.submodules result));
      [reflexivity|].
    apply List.Exists_exists. exists a. split; [exact Hin|].
    now apply submodule_lines_unknown.
Qed.

(** A hand-made analysis with the risk level "critical": composing fails. *)
Lemma C9_badges_witness :
  _generate_pr_content
    (AnalysisResult.mk "" [SubmoduleAnalysis.mk "core" "libs/core" "c0" "c1" 0 []
                             "critical" "feature" false []]
                       0 "high" [] "" "")
  = None.
Proof.
  eapply (proj2 (proj2 (C9_badges every_path failing_run Config.fallback []))).
  - left. reflexivity.
  - left. cbn. intros H. repeat destruct H as [H|H]; discriminate || exact H.
Defined.

(** ** Commits listed in the body (C5) *)

(** The commit list of the body is the first five records of [commits]. *)
Lemma recent_commits_lines_spec (c : CommitInfo.t) (cs : list CommitInfo.t) :
  recent_commits_lines (c :: cs)
  = (nl +:+ "**Recent commits**:")
    :: map commit_line (take 5 (c :: cs))
    ++ (if 5 <? length (c :: cs)
        then ["- ... and " +:+ Py.str_of_nat (length (c :: cs) - 5)
              +:+ " more commits"]
        else []).
Proof. reflexivity. Qed.

(** C5: on a range of six commits [c1 .. c6], oldest first, the body lists
    [c1] to [c5] and the note for one more commit; the most recent commit
    [c6] is not listed. *)
Theorem C5_oldest_five_listed :
  exists result,
    analyze_submodules every_path (history_run six_ids) Config.fallback
                       [core_update] = Some result
    /\ map CommitInfo.hash
           (concat (map SubmoduleAnalysis.commits (AnalysisResult.submodules result)))
       = six_ids
    /\ concat (map (fun a => recent_commits_lines (SubmoduleAnalysis.commits a))
                   (AnalysisResult.submodules result))
       = [nl +:+ "**Recent commits**:";
          "- `c1` change c1 (dev)";
          "- `c2` change c2 (dev)";
          "- `c3` change c3 (dev)";
          "- `c4` change c4 (dev)";
          "- `c5` change c5 (dev)";
          "- ... and 1 more commits"]
    /\ Py.contains "- `c1` change c1 (dev)" (AnalysisResult.pr_body result) = true
    /\ Py.contains "- `c6` change c6 (dev)" (AnalysisResult.pr_body result) = false.
Proof.
  eexists. split; [vm_compute; reflexivity|].
  vm_compute. repeat split; reflexivity.
Qed.

(** * Further properties *)

(** ** More facts about the string operations *)

Module PyMore.
Import Py.

Lemma startswith_spec (p s : string) :
  startswith p s = true <-> exists post, s = p +:+ post.
Proof.
  revert s. induction p as [|a p IH]; intros s; cbn.
  - split; [intros _; now exists s|reflexivity].
  - destruct s as [|b s].
    + split; [discriminate|intros [post H]; discriminate H].
    + rewrite andb_true_iff, Ascii.eqb_eq, IH. split.
      * intros [-> [post ->]]. now exists post.
      * intros [post H]. injection H as -> ->. split; [reflexivity|now exists post].
Qed.

(** [needle in hay] holds exactly when [hay] is [pre + needle + post]. *)
Lemma contains_spec (needle hay : string) :
  contains needle hay = true
  <-> exists pre post, hay = pre +:+ needle +:+ post.
Proof.
  induction hay as [|b hay IH]; cbn [contains].
  - rewrite orb_false_r, startswith_spec. split.
    + intros [post H]. now exists "", post.
    + intros ([|c pre] & post & H); [now exists post|discriminate H].
  - rewrite orb_true_iff, startswith_spec, IH. split.
    + intros [[post H]|(pre & post & H)].
      * now exists "", post.
      * exists (String b pre), post. cbn. now rewrite H.
    + intros ([|c pre] & post & H).
      * left. now exists post.
      * right. injection H as _ H. now exists pre, post.
Qed.

Lemma append_cons (x : ascii) (a b : string) :
  String x a +:+ b = String x (a +:+ b).
Proof. reflexivity. Qed.

Lemma append_assoc (a b c : string) : (a +:+ b) +:+ c = a +:+ (b +:+ c).
Proof.
  induction a as [|x a IH]; [reflexivity|].
  now rewrite !append_cons, IH.
Qed.

Lemma contains_trans (a b hay : string) :
  contains a b = true -> contains b hay = true -> contains a hay = true.
Proof.
  rewrite !contains_spec.
  intros (p1 & q1 & ->) (p2 & q2 & ->).
  exists (p2 +:+ p1), (q1 +:+ q2). now rewrite !append_assoc.
Qed.

Lemma lower_app (a b : string) : lower (a +:+ b) = lower a +:+ lower b.
Proof.
  induction a as [|x a IH]; [reflexivity|].
  rewrite append_cons. cbn [lower]. now rewrite append_cons, IH.
Qed.

(** ** [strip] *)

Lemma rstrip_cons_solid (c : ascii) (s : string) :
  isspace c = false -> rstrip (String c s) = String c (rstrip s).
Proof. intros H. cbn. rewrite H. now destruct (rstrip s). Qed.

Lemma rstrip_cons (c : ascii) (s : string) :
  rstrip (String c s)
  = match rstrip s with
    | EmptyString => if isspace c then EmptyString else String c EmptyString
    | r => String c r
    end.
Proof. reflexivity. Qed.

Lemma rstrip_idem (s : string) : rstrip (rstrip s) = rstrip s.
Proof.
  induction s as [|c s IH]; [reflexivity|].
  rewrite rstrip_cons. destruct (rstrip s) as [|d r] eqn:E.
  - destruct (isspace c) eqn:Ec; [reflexivity|]. cbn. now rewrite Ec.
  - rewrite rstrip_cons, IH. reflexivity.
Qed.

Lemma lstrip_solid (s : string) :
  match lstrip s with
  | EmptyString => True
  | String c _ => isspace c = false
  end.
Proof.
  induction s as [|c s IH]; cbn; [exact I|].
  destruct (isspace c) eqn:E; [exact IH|exact E].
Qed.

Lemma lstrip_rstrip_lstrip (s : string) :
  lstrip (rstrip (lstrip s)) = rstrip (lstrip s).
Proof.
  pose proof (lstrip_solid s) as H.
  destruct (lstrip s) as [|c t]; [reflexivity|].
  rewrite (rstrip_cons_solid _ _ H). cbn. now rewrite H.
Qed.

Lemma strip_idem (s : string) : strip (strip s) = strip s.
Proof. unfold strip. now rewrite lstrip_rstrip_lstrip, rstrip_idem. Qed.

(** A string strips to nothing exactly when it is all white space. *)
Lemma rstrip_empty_iff (s : string) :
  rstrip s = "" <-> forallb isspace (chars s) = true.
Proof.
  induction s as [|c s IH]; cbn; [tauto|].
  destruct (rstrip s) as [|d r] eqn:E.
  - destruct (isspace c); cbn.
    + tauto.
    + split; discriminate.
  - split; [discriminate|].
    rewrite andb_true_iff. intros [_ H]. apply IH in H. discriminate H.
Qed.

Lemma lstrip_all_space (s : string) :
  forallb isspace (chars s) = true -> lstrip s = "".
Proof.
  induction s as [|c s IH]; cbn; [reflexivity|].
  rewrite andb_true_iff. intros [-> H]. now apply IH.
Qed.

Lemma chars_lstrip_space (s : string) :
  forallb isspace (chars (lstrip s)) = true -> forallb isspace (chars s) = true.
Proof.
  induction s as [|c s IH]; cbn; [reflexivity|].
  destruct (isspace c) eqn:E; cbn; [exact IH|].
  rewrite E. discriminate.
Qed.

Lemma strip_empty_iff (s : string) :
  strip s = "" <-> forallb isspace (chars s) = true.
Proof.
  unfold strip. rewrite rstrip_empty_iff. split.
  - apply chars_lstrip_space.
  - intros H. now rewrite (lstrip_all_space _ H).
Qed.

Lemma truthy_false_iff (s : string) : truthy s = false <-> s = "".
Proof. destruct s; cbn; split; congruence. Qed.

End PyMore.

(** ** [split] and [join] *)

Module PySplit.
Import Py.

Lemma split_cons (sep c : ascii) (s : string) :
  split sep (String c s)
  = if Ascii.eqb c sep then EmptyString :: split sep s
    else match split sep s with
         | x :: xs => String c x :: xs
         | [] => [String c EmptyString]
         end.
Proof. reflexivity. Qed.

Lemma split_not_nil (sep : ascii) (s : string) : split sep s <> [].
Proof.
  induction s as [|c s IH]; [discriminate|].
  rewrite split_cons. destruct (Ascii.eqb c sep); [discriminate|].
  destruct (split sep s); discriminate.
Qed.

(** One part more than there are separators. *)
Lemma length_split (sep : ascii) (s : string) :
  length (split sep s) = S (count_if (fun c => Ascii.eqb c sep) (chars s)).
Proof.
  unfold count_if. induction s as [|c s IH]; [reflexivity|].
  rewrite split_cons. cbn [chars List.filter].
  destruct (Ascii.eqb c sep); cbn [length]; [now rewrite IH|].
  pose proof (split_not_nil sep s).
  destruct (split sep s); [contradiction|exact IH].
Qed.

(** A string without the separator is its own single part. *)
Lemma split_solid (sep : ascii) (s : string) :
  existsb (fun c => Ascii.eqb c sep) (chars s) = false -> split sep s = [s].
Proof.
  induction s as [|c s IH]; [reflexivity|].
  cbn [chars existsb]. rewrite orb_false_iff. intros [Hc Hs].
  rewrite split_cons, Hc, (IH Hs). reflexivity.
Qed.

(** Splitting [part + sep + rest] when [part] has no separator. *)
Lemma split_app_sep (sep : ascii) (part rest : string) :
  existsb (fun c => Ascii.eqb c sep) (chars part) = false ->
  split sep (part +:+ String sep rest) = part :: split sep rest.
Proof.
  induction part as [|c part IH]; intros H.
  - change ("" +:+ String sep rest) with (String sep rest).
    rewrite split_cons, Ascii.eqb_refl. reflexivity.
  - cbn [chars existsb] in H. apply orb_false_iff in H as [Hc Hs].
    rewrite PyMore.append_cons, split_cons, Hc, (IH Hs). reflexivity.
Qed.

Lemma join_cons (sep x : string) (y : string) (ys : list string) :
  join sep (x :: y :: ys) = x +:+ sep +:+ join sep (y :: ys).
Proof. reflexivity. Qed.

(** [sep.join(parts).split(sep)] gives the parts back when no part holds
    the separator. *)
Lemma split_join (sep : ascii) (parts : list string) :
  parts <> [] ->
  Forall (fun p => existsb (fun c => Ascii.eqb c sep) (chars p) = false) parts ->
  split sep (join (String sep EmptyString) parts) = parts.
Proof.
  intros Hne Hall. induction Hall as [|p ps Hp Hps IH]; [contradiction|].
  destruct ps as [|q ps].
  - cbn. now apply split_solid.
  - rewrite join_cons.
    change (String sep "" +:+ join (String sep "") (q :: ps))
      with (String sep (join (String sep "") (q :: ps))).
    rewrite (split_app_sep _ _ _ Hp), IH; [reflexivity|discriminate].
Qed.

(** [sep.join(s.split(sep))] is [s]. *)
Lemma join_split (sep : ascii) (s : string) :
  join (String sep EmptyString) (split sep s) = s.
Proof.
  induction s as [|c s IH]; [reflexivity|].
  rewrite split_cons. pose proof (split_not_nil sep s) as Hne.
  destruct (Ascii.eqb c sep) eqn:E.
  - apply Ascii.eqb_eq in E as ->.
    destruct (split sep s) as [|x xs]; [contradiction|].
    rewrite join_cons, IH. reflexivity.
  - destruct (split sep s) as [|x xs]; [contradiction|].
    destruct xs as [|y ys].
    + cbn in IH |- *. now rewrite IH.
    + rewrite join_cons in IH |- *. rewrite PyMore.append_cons, IH. reflexivity.
Qed.

(** [any(line.strip() for line in s.split("\n"))] fails exactly when [s]
    is all white space. *)
Lemma non_blank_split_nil (s : string) :
  non_blank (split LF s) = [] <-> forallb isspace (chars s) = true.
Proof.
  unfold non_blank. induction s as [|c s IH]; [cbn; tauto|].
  rewrite split_cons. cbn [chars forallb].
  pose proof (split_not_nil LF s) as Hne.
  destruct (Ascii.eqb c LF) eqn:E.
  - apply Ascii.eqb_eq in E as ->. cbn. exact IH.
  - destruct (split LF s) as [|x xs]; [contradiction|].
    cbn [List.filter] in IH |- *.
    pose proof (PyMore.strip_empty_iff x) as Hx.
    pose proof (PyMore.strip_empty_iff (String c x)) as Hcx.
    cbn [chars forallb] in Hcx.
    destruct (strip x) eqn:Ex, (strip (String c x)) eqn:Ecx; cbn [truthy] in *.
    + rewrite IH. destruct Hcx as [Hcx _]. specialize (Hcx eq_refl).
      apply andb_true_iff in Hcx as [-> _]. reflexivity.
    + split; [discriminate|]. rewrite andb_true_iff, <- IH.
      intros [Hc Hxs]. destruct Hcx as [_ Hcx].
      rewrite Hc in Hcx. destruct Hx as [Hx _].
      rewrite (Hx eq_refl) in Hcx. discriminate (Hcx eq_refl).
    + split; [intros _|].
      * destruct Hcx as [Hcx _]. specialize (Hcx eq_refl).
        apply andb_true_iff in Hcx as [_ Hcx].
        destruct Hx as [_ Hx]. discriminate (Hx Hcx).
      * rewrite andb_true_iff, <- IH. intros [_ H]. discriminate H.
    + split; [discriminate|]. rewrite andb_true_iff, <- IH.
      intros [_ H]. discriminate H.
Qed.

End PySplit.

(** ** The classifier on rearranged and extended commit lists *)

Lemma count_if_app {A : Type} (f : A -> bool) (xs ys : list A) :
  count_if f (xs ++ ys) = count_if f xs + count_if f ys.
Proof. unfold count_if. now rewrite List.filter_app, length_app. Qed.

Lemma count_if_perm {A : Type} (f : A -> bool) (xs ys : list A) :
  Permutation xs ys -> count_if f xs = count_if f ys.
Proof.
  unfold count_if. induction 1 as [|x xs ys _ IH|x y xs|xs ys zs _ IH1 _ IH2];
    cbn; try reflexivity.
  - destruct (f x); cbn; congruence.
  - destruct (f x), (f y); reflexivity.
  - congruence.
Qed.

Lemma existsb_perm {A : Type} (f : A -> bool) (xs ys : list A) :
  Permutation xs ys -> existsb f xs = existsb f ys.
Proof.
  induction 1 as [|x xs ys _ IH|x y xs|xs ys zs _ IH1 _ IH2];
    cbn; try reflexivity.
  - now rewrite IH.
  - destruct (f x), (f y); reflexivity.
  - congruence.
Qed.

Lemma count_if_pointwise {A : Type} (f : A -> bool) (xs ys : list A) :
  Forall2 (fun x y => f x = f y) xs ys -> count_if f xs = count_if f ys.
Proof.
  unfold count_if. induction 1 as [|x y xs ys Hxy _ IH]; [reflexivity|].
  cbn. rewrite Hxy. destruct (f y); cbn; congruence.
Qed.

Lemma existsb_pointwise {A : Type} (f : A -> bool) (xs ys : list A) :
  Forall2 (fun x y => f x = f y) xs ys -> existsb f xs = existsb f ys.
Proof.
  induction 1 as [|x y xs ys Hxy _ IH]; [reflexivity|].
  cbn. now rewrite Hxy, IH.
Qed.

(** The classifier's result written with the counts of the loop invariant. *)
Lemma analyze_risk_level_counts (cfg : Config.t) (commits : list CommitInfo.t)
                                (name : string) :
  _analyze_risk_level cfg commits name =
  let breaking :=
    existsb (breaking_commit (breaking_patterns_of cfg name)) commits in
  (risk_level_of
     (mk_risk_state
        (count_if (breaking_commit (breaking_patterns_of cfg name)) commits
         + count_if (keyword_commit (high_keywords cfg)) commits)
        (count_if (fun c => negb (keyword_commit (high_keywords cfg) c)
                            && keyword_commit (medium_keywords cfg) c) commits)
        breaking)
     (is_critical cfg name),
   change_type_of breaking commits,
   breaking).
Proof. unfold _analyze_risk_level. now rewrite risk_loop_counts. Qed.

(** X1.  The classification does not depend on the order of the commits. *)
Theorem classification_order_independent (cfg : Config.t) (name : string)
    (commits commits' : list CommitInfo.t) :
  Permutation commits commits' ->
  _analyze_risk_level cfg commits name = _analyze_risk_level cfg commits' name.
Proof.
  intros Hp. rewrite !analyze_risk_level_counts. cbv zeta.
  unfold change_type_of, any_message_contains.
  rewrite !(count_if_perm _ _ _ Hp), !(existsb_perm _ _ _ Hp). reflexivity.
Qed.

Lemma classification_order_independent_witness :
  _analyze_risk_level Config.fallback
    [commit_with "fix: crash on load"; commit_with "update api docs"] "core"
  = _analyze_risk_level Config.fallback
      [commit_with "update api docs"; commit_with "fix: crash on load"] "core".
Proof.
  apply classification_order_independent. apply perm_swap.
Defined.

Lemma risk_level_of_mono (st st' : risk_state) (critical : bool) :
  high_risk_count st <= high_risk_count st' ->
  medium_risk_count st <= medium_risk_count st' ->
  (has_breaking_changes st = true -> has_breaking_changes st' = true) ->
  risk_rank (risk_level_of st critical) <= risk_rank (risk_level_of st' critical).
Proof.
  destruct st as [h m b], st' as [h' m' b']. unfold risk_level_of.
  cbn [high_risk_count medium_risk_count has_breaking_changes].
  intros Hh Hm Hb.
  destruct b; [rewrite (Hb eq_refl); cbn; lia|].
  destruct b', critical,
    (Nat.ltb_spec 0 h), (Nat.ltb_spec 0 h'),
    (Nat.ltb_spec 2 m), (Nat.ltb_spec 2 m'),
    (Nat.ltb_spec 0 m), (Nat.ltb_spec 0 m');
    cbn [orb andb]; try lia; vm_compute; lia.
Qed.

(** X2.  More commits never lower the risk level, and never clear the
    breaking flag. *)
Theorem classification_monotone (cfg : Config.t) (name : string)
    (commits more : list CommitInfo.t) :
  let before := _analyze_risk_level cfg commits name in
  let after := _analyze_risk_level cfg (commits ++ more) name in
  risk_rank (fst (fst before)) <= risk_rank (fst (fst after))
  /\ snd after
     = snd before
       || existsb (breaking_commit (breaking_patterns_of cfg name)) more.
Proof.
  cbv zeta. rewrite !analyze_risk_level_counts. cbv zeta. cbn [fst snd].
  rewrite !count_if_app, existsb_app. split; [|reflexivity].
  apply risk_level_of_mono;
    cbn [high_risk_count medium_risk_count has_breaking_changes]; try lia.
  intros ->. reflexivity.
Qed.

(** X3.  The classification reads the messages through [lower()] only:
    commit lists that agree up to the case of the letters of their messages
    are classified alike. *)
Theorem classification_case_insensitive (cfg : Config.t) (name : string)
    (commits commits' : list CommitInfo.t) :
  Forall2 same_message_modulo_case commits commits' ->
  _analyze_risk_level cfg commits name = _analyze_risk_level cfg commits' name.
Proof.
  intros Hall. rewrite !analyze_risk_level_counts. cbv zeta.
  unfold change_type_of, any_message_contains.
  assert (Hf : forall f : string -> bool,
             Forall2 (fun c c' => f (Py.lower (CommitInfo.message c))
                                  = f (Py.lower (CommitInfo.message c')))
                     commits commits').
  { intros f. eapply Forall2_impl; [exact Hall|].
    intros c c' H. unfold same_message_modulo_case in H. now rewrite H. }
  rewrite (count_if_pointwise (breaking_commit _) _ _
             (Hf (fun m => existsb (pattern_hits m) _))).
  rewrite (count_if_pointwise (keyword_commit (high_keywords cfg)) _ _
             (Hf (fun m => existsb (keyword_hits m) _))).
  rewrite (count_if_pointwise
             (fun c => negb (keyword_commit (high_keywords cfg) c)
                       && keyword_commit (medium_keywords cfg) c) _ _
             (Hf (fun m => negb (existsb (keyword_hits m) (high_keywords cfg))
                           && existsb (keyword_hits m) (medium_keywords cfg)))).
  rewrite (existsb_pointwise (breaking_commit _) _ _
             (Hf (fun m => existsb (pattern_hits m) _))).
  rewrite (existsb_pointwise _ _ _ (Hf (Py.contains "feat"))).
  rewrite (existsb_pointwise _ _ _ (Hf (Py.contains "fix"))).
  reflexivity.
Qed.

Lemma classification_case_insensitive_witness :
  _analyze_risk_level Config.fallback [commit_with "Fix Auth Bug"] "core"
  = _analyze_risk_level Config.fallback [commit_with "FIX AUTH BUG"] "core".
Proof.
  apply classification_case_insensitive.
  constructor; [vm_compute; reflexivity|constructor].
Defined.

(** ** What the three results say about each other *)

(** X4.  The three results of the classifier agree: the change type is
    "breaking" exactly when the breaking flag is set, a set flag forces the
    risk level "high", and both strings are among the enumerated values. *)
Theorem classification_coherent (cfg : Config.t) (commits : list CommitInfo.t)
                                (name : string) :
  let risk_level := fst (fst (_analyze_risk_level cfg commits name)) in
  let change_type := snd (fst (_analyze_risk_level cfg commits name)) in
  let breaking := snd (_analyze_risk_level cfg commits name) in
  (change_type = "breaking" <-> breaking = true)
  /\ (breaking = true -> risk_level = "high")
  /\ (risk_level <> "high" ->
      forall c, In c commits ->
        breaking_commit (breaking_patterns_of cfg name) c = false
        /\ keyword_commit (high_keywords cfg) c = false)
  /\ In risk_level ["high"; "medium"; "low"]
  /\ In change_type ["breaking"; "feature"; "bugfix"; "maintenance"].
Proof.
  cbv zeta. unfold _analyze_risk_level. cbn [fst snd].
  split; [|split; [|split; [|split]]].
  - unfold change_type_of.
    destruct (has_breaking_changes _); [tauto|].
    destruct (any_message_contains "feat" commits);
      [|destruct (any_message_contains "fix" commits)];
      split; discriminate.
  - unfold risk_level_of. now intros ->.
  - rewrite risk_loop_counts. unfold risk_level_of.
    cbn [high_risk_count medium_risk_count has_breaking_changes].
    intros Hnot c Hin.
    destruct (existsb _ commits) eqn:Eb; [now contradiction Hnot|].
    cbn [orb] in Hnot.
    destruct (Nat.ltb_spec 0
                (count_if (breaking_commit (breaking_patterns_of cfg name)) commits
                 + count_if (keyword_commit (high_keywords cfg)) commits))
      as [Hpos|Hzero]; [now contradiction Hnot|].
    assert (Hcount : forall f : CommitInfo.t -> bool,
               count_if f commits = 0 -> f c = false).
    { intros f Hf. unfold count_if in Hf. apply length_zero_iff_nil in Hf.
      destruct (f c) eqn:E; [|reflexivity].
      assert (In c (List.filter f commits)) as Hc by (apply filter_In; auto).
      rewrite Hf in Hc. destruct Hc. }
    split; apply Hcount; lia.
  - apply risk_level_of_range.
  - apply change_type_of_range.
Qed.

Lemma classification_coherent_witness :
  fst (fst (_analyze_risk_level Config.fallback
              [commit_with "feat!: drop the v1 endpoints"] "core")) = "high".
Proof.
  apply (classification_coherent Config.fallback
           [commit_with "feat!: drop the v1 endpoints"] "core").
  vm_compute. reflexivity.
Defined.

(** ** Markers and keywords are found as substrings *)

Lemma existsb_intro {A : Type} (f : A -> bool) (x : A) (xs : list A) :
  In x xs -> f x = true -> existsb f xs = true.
Proof. intros Hin Hx. apply existsb_exists. eauto. Qed.

Lemma count_if_pos {A : Type} (f : A -> bool) (x : A) (xs : list A) :
  In x xs -> f x = true -> 0 < count_if f xs.
Proof.
  intros Hin Hx. unfold count_if.
  assert (In x (List.filter f xs)) as H by (apply filter_In; auto).
  destruct (List.filter f xs); [destruct H|cbn; lia].
Qed.

(** X5.  A commit whose lower-cased message holds the lower-cased form of a
    breaking pattern anywhere makes the whole list ("high", "breaking",
    true); one that holds a high keyword anywhere makes the risk level
    "high".  The position and the surrounding text do not matter. *)
Theorem marker_anywhere_is_breaking (cfg : Config.t) (name : string)
    (commits : list CommitInfo.t) (c : CommitInfo.t)
    (word before after : string) :
  In c commits ->
  Py.lower (CommitInfo.message c) = before +:+ word +:+ after ->
  ((exists pattern, In pattern (breaking_patterns_of cfg name)
                    /\ word = Py.lower pattern) ->
   _analyze_risk_level cfg commits name = ("high", "breaking", true))
  /\ (In word (high_keywords cfg) ->
      fst (fst (_analyze_risk_level cfg commits name)) = "high").
Proof.
  intros Hin Hmsg.
  assert (Hsub : Py.contains word (Py.lower (CommitInfo.message c)) = true)
    by (apply PyMore.contains_spec; eauto).
  rewrite analyze_risk_level_counts. cbv zeta. split.
  - intros (pattern & Hp & ->).
    assert (Hc : breaking_commit (breaking_patterns_of cfg name) c = true)
      by (unfold breaking_commit; eapply existsb_intro; eauto).
    rewrite (existsb_intro _ _ _ Hin Hc). reflexivity.
  - intros Hk. cbn [fst]. unfold risk_level_of.
    cbn [high_risk_count medium_risk_count has_breaking_changes].
    assert (Hc : keyword_commit (high_keywords cfg) c = true)
      by (unfold keyword_commit; eapply existsb_intro; eauto).
    pose proof (count_if_pos _ _ _ Hin Hc) as Hpos.
    destruct (Nat.ltb_spec 0
                (count_if (breaking_commit (breaking_patterns_of cfg name)) commits
                 + count_if (keyword_commit (high_keywords cfg)) commits));
      [now rewrite orb_true_r|lia].
Qed.

(** The message [Refactor authorization layer] holds the keyword [auth]. *)
Lemma marker_anywhere_is_breaking_witness :
  fst (fst (_analyze_risk_level Config.fallback
              [commit_with "docs: typo"; commit_with "Refactor authorization layer"]
              "core")) = "high".
Proof.
  apply (marker_anywhere_is_breaking Config.fallback "core"
           [commit_with "docs: typo"; commit_with "Refactor authorization layer"]
           (commit_with "Refactor authorization layer")
           "auth" "refactor " "orization layer").
  - right. left. reflexivity.
  - vm_compute. reflexivity.
  - vm_compute. tauto.
Defined.

(** ** The built-in policy *)

Lemma contains_absorb (short long hay : string) :
  Py.contains short long = true ->
  Py.contains short hay || Py.contains long hay = Py.contains short hay.
Proof.
  intros H. destruct (Py.contains long hay) eqn:E.
  - rewrite (PyMore.contains_trans _ _ _ H E). reflexivity.
  - apply orb_false_r.
Qed.

(** X6.  Under the configuration used when no configuration file exists, a
    commit is a breaking change exactly when its lower-cased message holds
    [breaking] or [!:]; the patterns [breaking:] and [feat!:] add nothing.
    Every commit found through [breaking] also hits the high keyword
    [breaking]. *)
Theorem fallback_breaking_commits (name : string) (c : CommitInfo.t) :
  breaking_commit (breaking_patterns_of Config.fallback name) c
  = mentions "breaking" c || mentions "!:" c
  /\ (mentions "breaking" c = true ->
      keyword_commit (high_keywords Config.fallback) c = true).
Proof.
  assert (Hp : breaking_patterns_of Config.fallback name
               = ["BREAKING"; "breaking:"; "!:"; "feat!:"]).
  { unfold breaking_patterns_of, Config.submodule_config. cbn.
    now rewrite lookup_empty. }
  rewrite Hp. unfold breaking_commit, mentions, pattern_hits. cbn [existsb].
  set (m := Py.lower (CommitInfo.message c)).
  change (Py.lower "BREAKING") with "breaking".
  change (Py.lower "breaking:") with "breaking:".
  change (Py.lower "!:") with "!:".
  change (Py.lower "feat!:") with "feat!:".
  split.
  - pose proof (contains_absorb "breaking" "breaking:" m eq_refl) as H1.
    pose proof (contains_absorb "!:" "feat!:" m eq_refl) as H2.
    destruct (Py.contains "breaking" m), (Py.contains "breaking:" m),
      (Py.contains "!:" m), (Py.contains "feat!:" m);
      cbn in H1, H2 |- *; congruence.
  - intros H. unfold keyword_commit, keyword_hits. fold m.
    change (high_keywords Config.fallback)
      with ["security"; "auth"; "database"; "migration"; "breaking"].
    cbn [existsb]. rewrite H. now rewrite !orb_true_r.
Qed.

(** The message [chore: non-breaking cleanup] counts as a breaking change. *)
Lemma fallback_breaking_commits_witness :
  keyword_commit (high_keywords Config.fallback)
                 (commit_with "chore: non-breaking cleanup") = true.
Proof.
  apply (fallback_breaking_commits "core"). vm_compute. reflexivity.
Defined.

(** ** The git layer: [_run_git_command] and [_get_commit_info] *)

Lemma strip_solid (s : string) :
  Py.strip s = ""
  \/ exists c rest, Py.strip s = String c rest /\ Py.isspace c = false.
Proof.
  unfold Py.strip. pose proof (PyMore.lstrip_solid s) as H.
  destruct (Py.lstrip s) as [|c t]; [now left|].
  right. rewrite (PyMore.rstrip_cons_solid _ _ H). eauto.
Qed.

Lemma slice_to_length (n : nat) (s : string) : str_len (Py.slice_to n s) <= n.
Proof.
  unfold str_len. revert s. induction n as [|n IH]; intros [|c s]; cbn; try lia.
  specialize (IH s). lia.
Qed.

Lemma non_blank_all (lines : list string) :
  Forall (fun f => Py.strip f <> "") (non_blank lines).
Proof.
  unfold non_blank. apply List.Forall_forall. intros f Hf.
  apply filter_In in Hf as [_ Hf]. intros E. rewrite E in Hf. discriminate Hf.
Qed.

Lemma lstrip_prefix (s : string) :
  exists before, s = before +:+ Py.lstrip s /\ all_space before = true.
Proof.
  induction s as [|c s (before & Hs & Hb)]; [now exists ""|].
  cbn [Py.lstrip]. destruct (Py.isspace c) eqn:E.
  - exists (String c before). rewrite PyMore.append_cons, <- Hs.
    split; [reflexivity|]. unfold all_space in *. cbn. now rewrite E.
  - now exists "".
Qed.

Lemma rstrip_suffix (s : string) :
  exists after, s = Py.rstrip s +:+ after /\ all_space after = true.
Proof.
  induction s as [|c s (after & Hs & Ha)]; [now exists ""|].
  rewrite PyMore.rstrip_cons. destruct (Py.rstrip s) as [|d r].
  - change ("" +:+ after) with after in Hs. subst after.
    destruct (Py.isspace c) eqn:E.
    + exists (String c s). split; [reflexivity|].
      unfold all_space in *. cbn. now rewrite E.
    + now exists s.
  - exists after. now rewrite PyMore.append_cons, <- Hs.
Qed.

Lemma rstrip_last_solid (s init : string) (c : ascii) :
  Py.rstrip s = init +:+ String c "" -> Py.isspace c = false.
Proof.
  revert init. induction s as [|a s IH]; intros init.
  - destruct init; discriminate.
  - rewrite PyMore.rstrip_cons. destruct (Py.rstrip s) as [|d r].
    + destruct (Py.isspace a) eqn:E.
      * destruct init; discriminate.
      * destruct init as [|x [|y init]]; intros H; try discriminate H.
        injection H as <-. exact E.
    + destruct init as [|x init]; intros H.
      * discriminate H.
      * injection H as _ H. now apply (IH init).
Qed.

(** [s.strip()] is [s] without a white-space prefix and a white-space
    suffix. *)
Lemma strip_decompose (s : string) :
  exists before after,
    s = before +:+ Py.strip s +:+ after
    /\ all_space before = true /\ all_space after = true.
Proof.
  destruct (lstrip_prefix s) as (before & Hs & Hb).
  destruct (rstrip_suffix (Py.lstrip s)) as (after & Hl & Ha).
  exists before, after. unfold Py.strip. now rewrite <- Hl.
Qed.

Lemma strip_edges (s : string) :
  (forall c rest, Py.strip s = String c rest -> Py.isspace c = false)
  /\ (forall init c, Py.strip s = init +:+ String c "" -> Py.isspace c = false).
Proof.
  split.
  - intros c rest H. destruct (strip_solid s) as [E|(d & r & E & Hd)];
      rewrite E in H; [discriminate H|]. now injection H as <- _.
  - intros init c. apply rstrip_last_solid.
Qed.

Section GitLayer.

Variable path_exists : string -> bool.
Variable subprocess_run : list string -> string -> option string.

Local Abbreviation git := (_run_git_command path_exists subprocess_run).
Local Abbreviation commit_info := (_get_commit_info path_exists subprocess_run).

(** The output is empty or starts with a character that is no white
    space. *)
Lemma run_git_solid (command : list string) (cwd : string) :
  git command cwd = ""
  \/ exists c rest, git command cwd = String c rest /\ Py.isspace c = false.
Proof.
  unfold _run_git_command.
  destruct (Py.truthy cwd && negb (path_exists cwd)); [now left|].
  destruct (subprocess_run command cwd); [apply strip_solid|now left].
Qed.

(** X7.  When the command succeeds with ASCII output, [_run_git_command]
    returns that output without the white space at its two ends: the output
    is white space, then the result, then white space, and the result neither
    starts nor ends with a white-space character.  The result is the empty
    string when the working directory is named but missing (the command is
    then not run) and when the command fails. *)
Theorem run_git_command_output (command : list string) (cwd : string) :
  (forall stdout,
      subprocess_run command cwd = Some stdout ->
      Py.truthy cwd && negb (path_exists cwd) = false ->
      is_ascii stdout = true ->
      (exists before after,
          stdout = before +:+ git command cwd +:+ after
          /\ all_space before = true /\ all_space after = true)
      /\ (forall c rest, git command cwd = String c rest -> Py.isspace c = false)
      /\ (forall init c,
             git command cwd = init +:+ String c "" -> Py.isspace c = false))
  /\ (Py.truthy cwd = true -> path_exists cwd = false -> git command cwd = "")
  /\ (subprocess_run command cwd = None -> git command cwd = "").
Proof.
  unfold _run_git_command. split; [|split].
  - intros stdout -> -> _. split; [apply strip_decompose|apply strip_edges].
  - intros -> ->. reflexivity.
  - intros ->. now destruct (Py.truthy cwd && negb (path_exists cwd)).
Qed.

Variables commit_hash repo_path : string.

Local Abbreviation header :=
  (git ["git"; "show"; "--format=%H|%s|%an|%ai"; "-s"; commit_hash] repo_path).

Lemma split_bar_fields (fields : list string) :
  fields <> [] ->
  Forall (fun f => bar_free f = true) fields ->
  Py.split "|"%char (Py.join "|" fields) = fields.
Proof.
  intros Hne Hall. apply (PySplit.split_join "|"%char fields Hne).
  eapply Forall_impl; [exact Hall|].
  intros f Hf. unfold bar_free in Hf. now apply negb_true_iff in Hf.
Qed.

(** X8.  When the header line of a commit is made of at least four fields
    joined by bars, the record takes the first four of them (the first one
    cut to 8 characters) and drops the others; a subject that holds a bar
    thus shifts the author and the date. *)
Theorem commit_info_fields (h m a d : string) (others : list string) :
  header = Py.join "|" (h :: m :: a :: d :: others) ->
  Forall (fun f => bar_free f = true) (h :: m :: a :: d :: others) ->
  let record := commit_info commit_hash repo_path in
  CommitInfo.hash record = Py.slice_to 8 h
  /\ CommitInfo.message record = m
  /\ CommitInfo.author record = a
  /\ CommitInfo.date record = d.
Proof.
  intros Hheader Hfree. cbv zeta. unfold _get_commit_info.
  rewrite Hheader.
  rewrite (split_bar_fields (h :: m :: a :: d :: others)
             ltac:(discriminate) Hfree).
  assert (Ht : Py.truthy (Py.join "|" (h :: m :: a :: d :: others)) = true).
  { rewrite PySplit.join_cons. now destruct h. }
  rewrite Ht. cbn [negb CommitInfo.hash CommitInfo.message CommitInfo.author
                   CommitInfo.date]. auto.
Qed.

(** X9.  When the header line holds fewer than three bars (it is empty when
    the command fails) the record is the placeholder: the first 8 characters
    of the identifier that was asked for, "Unknown" as message and author, no
    date.  In every case the hash has at most 8 characters and no changed
    file is blank. *)
Theorem commit_info_placeholder :
  let record := commit_info commit_hash repo_path in
  (count_if (fun c => Ascii.eqb c "|"%char) (Py.chars header) < 3 ->
   CommitInfo.hash record = Py.slice_to 8 commit_hash
   /\ CommitInfo.message record = "Unknown"
   /\ CommitInfo.author record = "Unknown"
   /\ CommitInfo.date record = "")
  /\ str_len (CommitInfo.hash record) <= 8
  /\ Forall (fun f => Py.strip f <> "") (CommitInfo.files_changed record).
Proof.
  cbv zeta. unfold _get_commit_info.
  set (files := if Py.truthy _ then non_blank _ else []).
  assert (Hfiles : Forall (fun f => Py.strip f <> "") files).
  { unfold files. destruct (Py.truthy _); [apply non_blank_all|constructor]. }
  pose proof (PySplit.length_split "|"%char header) as Hlen.
  destruct (Py.truthy header); cbn [negb].
  - destruct (Py.split "|"%char header) as [|f1 [|f2 [|f3 [|f4 rest]]]];
      cbn [CommitInfo.hash CommitInfo.message CommitInfo.author
           CommitInfo.date CommitInfo.files_changed length] in *;
      (split; [intros; try (repeat split; reflexivity); lia|]);
      (split; [apply slice_to_length|exact Hfiles]).
  - cbn [CommitInfo.hash CommitInfo.message CommitInfo.author
         CommitInfo.date CommitInfo.files_changed].
    split; [auto|]. split; [apply slice_to_length|exact Hfiles].
Qed.

End GitLayer.

(** A commit whose subject holds a bar. *)
Lemma commit_info_fields_witness :
  CommitInfo.message
    (_get_commit_info every_path
       (single_commit_run "0123456789abcdef|fix a|b|Ann|2024-01-01")
       "0123456789abcdef" "libs/core")
  = "fix a".
Proof.
  apply (commit_info_fields every_path
           (single_commit_run "0123456789abcdef|fix a|b|Ann|2024-01-01")
           "0123456789abcdef" "libs/core"
           "0123456789abcdef" "fix a" "b" "Ann" ["2024-01-01"]).
  - vm_compute. reflexivity.
  - repeat constructor.
Defined.

Lemma commit_info_placeholder_witness :
  CommitInfo.message
    (_get_commit_info every_path (single_commit_run "0123456789abcdef|fix a")
                      "0123456789abcdef" "libs/core")
  = "Unknown".
Proof.
  apply (commit_info_placeholder every_path
           (single_commit_run "0123456789abcdef|fix a")
           "0123456789abcdef" "libs/core").
  vm_compute. lia.
Defined.

(** The output [ c1], [c2 ] on two lines, with a space at either end. *)
Lemma run_git_command_output_witness :
  exists before after,
    Py.join nl [" c1"; "c2 "]
    = before
      +:+ _run_git_command every_path (history_run [" c1"; "c2 "])
            ["git"; "rev-list"; "--reverse"; "c0..tip"] "libs/core"
      +:+ after
    /\ all_space before = true /\ all_space after = true.
Proof.
  apply (proj1 (run_git_command_output every_path (history_run [" c1"; "c2 "])
                  ["git"; "rev-list"; "--reverse"; "c0..tip"] "libs/core")
               (Py.join nl [" c1"; "c2 "]));
    vm_compute; reflexivity.
Defined.

(** ** The aggregator on one descriptor *)

Section OneDescriptor.

Variable path_exists : string -> bool.
Variable subprocess_run : list string -> string -> option string.
Variable cfg : Config.t.

Local Abbreviation git := (_run_git_command path_exists subprocess_run).
Local Abbreviation resolve := (resolve_old_commit path_exists subprocess_run).
Local Abbreviation analysis := (analysis_of path_exists subprocess_run cfg).
Local Abbreviation previous := (previous_revision path_exists subprocess_run).

Lemma resolve_truthy (info : SubmoduleInfo.t) (r : string) :
  resolve info = Some r -> Py.truthy r = true.
Proof.
  unfold resolve_old_commit.
  destruct (negb (Py.truthy _) || String.eqb _ "unknown") eqn:E.
  - destruct (Py.truthy (git _ _)) eqn:Et; cbn; [|discriminate].
    intros H. injection H as <-. exact Et.
  - intros H. injection H as <-.
    apply orb_false_iff in E as [E _]. now apply negb_false_iff in E.
Qed.

(** X10.  An old revision given by the descriptor (not empty, not
    "unknown") is used as it is, without asking git; otherwise the previous
    revision of the path is used, if git gives one.  The revision is never
    empty, so the analysis stores its first 8 characters and never the
    placeholder of the code's [else] branch. *)
Theorem old_revision_resolution (info : SubmoduleInfo.t) :
  (forall r, SubmoduleInfo.old_commit info = Some r ->
             r <> "" -> r <> "unknown" -> resolve info = Some r)
  /\ (SubmoduleInfo.old_commit info = None
      \/ SubmoduleInfo.old_commit info = Some ""
      \/ SubmoduleInfo.old_commit info = Some "unknown" ->
      resolve info
      = (if Py.truthy (previous (SubmoduleInfo.path info))
         then Some (previous (SubmoduleInfo.path info)) else None))
  /\ (forall r, resolve info = Some r ->
        r <> ""
        /\ SubmoduleAnalysis.old_commit (analysis info r) = Py.slice_to 8 r
        /\ SubmoduleAnalysis.old_commit (analysis info r) <> ""
        /\ str_len (SubmoduleAnalysis.old_commit (analysis info r)) <= 8
        /\ str_len (SubmoduleAnalysis.new_commit (analysis info r)) <= 8).
Proof.
  split; [|split].
  - intros r Hr Hne Hunk. unfold resolve_old_commit. rewrite Hr.
    cbn [default from_option id].
    destruct r as [|c r]; [contradiction|]. cbn [Py.truthy negb orb].
    destruct (String.eqb_spec (String c r) "unknown"); [contradiction|reflexivity].
  - unfold resolve_old_commit, previous_revision.
    intros [-> | [-> | ->]]; cbn [default from_option id Py.truthy negb orb];
      try change (String.eqb "unknown" "unknown") with true;
      rewrite ?orb_true_r; now destruct (Py.truthy _).
  - intros r Hr. pose proof (resolve_truthy info r Hr) as Ht.
    assert (Hold : SubmoduleAnalysis.old_commit (analysis info r)
                   = Py.slice_to 8 r).
    { unfold analysis_of. destruct (collect_commits _ _ _ _ _) as [cs n].
      unfold _analyze_risk_level. cbn [SubmoduleAnalysis.old_commit].
      now rewrite Ht. }
    assert (Hnew : SubmoduleAnalysis.new_commit (analysis info r)
                   = Py.slice_to 8 (SubmoduleInfo.new_commit info)).
    { unfold analysis_of. destruct (collect_commits _ _ _ _ _) as [cs n].
      reflexivity. }
    rewrite Hold, Hnew. destruct r as [|c r]; [discriminate Ht|].
    repeat split; try discriminate; apply slice_to_length.
Qed.

Lemma analyze_no_commits (name : string) :
  _analyze_risk_level cfg [] name = ("low", "maintenance", false).
Proof.
  rewrite analyze_risk_level_counts. cbv zeta.
  unfold risk_level_of, change_type_of, count_if. cbn.
  reflexivity.
Qed.

(** The lines of a non-empty stripped output start with a line that is not
    blank. *)
Lemma solid_first_line (c : ascii) (rest : string) (n : nat) :
  Py.isspace c = false ->
  non_blank (take (S n) (Py.split Py.LF (String c rest))) <> [].
Proof.
  intros Hc. rewrite PySplit.split_cons.
  assert (Ascii.eqb c Py.LF = false) as ->.
  { destruct (Ascii.eqb_spec c Py.LF) as [->|]; [discriminate Hc|reflexivity]. }
  pose proof (PySplit.split_not_nil Py.LF rest) as Hne.
  destruct (Py.split Py.LF rest) as [|x xs]; [contradiction|].
  cbn [take firstn]. unfold non_blank. cbn [List.filter].
  destruct (Py.strip (String c x)) eqn:E; [|discriminate].
  apply PyMore.strip_empty_iff in E. cbn in E. rewrite Hc in E. discriminate E.
Qed.

(** X11.  For a resolved old revision, no commit is counted exactly when
    the two revisions are equal or the range query returns nothing; the list
    of examined commits is empty exactly then, and such an update is
    classified ("low", "maintenance", false). *)
Theorem no_commits_iff (info : SubmoduleInfo.t) (r : string) :
  resolve info = Some r ->
  let a := analysis info r in
  let listed :=
    git ["git"; "rev-list"; "--reverse";
         r +:+ ".." +:+ SubmoduleInfo.new_commit info]
        (SubmoduleInfo.path info) in
  (SubmoduleAnalysis.commits_count a = 0
   <-> r = SubmoduleInfo.new_commit info \/ listed = "")
  /\ (SubmoduleAnalysis.commits a = [] <-> SubmoduleAnalysis.commits_count a = 0)
  /\ (SubmoduleAnalysis.commits_count a = 0 ->
      SubmoduleAnalysis.risk_level a = "low"
      /\ SubmoduleAnalysis.change_type a = "maintenance"
      /\ SubmoduleAnalysis.breaking_changes a = false).
Proof.
  intros Hr. cbv zeta. pose proof (resolve_truthy info r Hr) as Ht.
  destruct (analysis_of_fields path_exists subprocess_run cfg info r)
    as (Hcommits & Hcount & _ & Hrisk).
  cbv zeta in Hcommits, Hcount.
  set (listed := git _ _).
  assert (Hcases :
    (r = SubmoduleInfo.new_commit info \/ listed = "")
    /\ SubmoduleAnalysis.commits (analysis info r) = []
    /\ SubmoduleAnalysis.commits_count (analysis info r) = 0
    \/ r <> SubmoduleInfo.new_commit info /\ listed <> ""
       /\ SubmoduleAnalysis.commits (analysis info r) <> []
       /\ SubmoduleAnalysis.commits_count (analysis info r) <> 0).
  { rewrite Hcommits, Hcount. unfold collect_commits, commit_hashes_of.
    fold listed. rewrite Ht. cbn [andb].
    destruct (String.eqb_spec r (SubmoduleInfo.new_commit info)) as [Heq|Hneq];
      cbn [negb fst snd]; [left; auto|].
    destruct (run_git_solid path_exists subprocess_run
                ["git"; "rev-list"; "--reverse";
                 r +:+ ".." +:+ SubmoduleInfo.new_commit info]
                (SubmoduleInfo.path info))
      as [E|(c & rest & E & Hc)]; fold listed in E; rewrite E.
    - left. cbn. auto.
    - right. pose proof (solid_first_line c rest 9 Hc) as H10.
      pose proof (non_blank_take_le 10 (Py.split Py.LF (String c rest))) as Hle.
      repeat split; try assumption; try discriminate.
      + intros H. apply map_eq_nil in H. contradiction.
      + intros H0. rewrite H0 in Hle.
        destruct (non_blank (take 10 _)); [contradiction|].
        cbn [length] in Hle. lia. }
  assert (Hnil : SubmoduleAnalysis.commits (analysis info r) = [] ->
                 SubmoduleAnalysis.risk_level (analysis info r) = "low"
                 /\ SubmoduleAnalysis.change_type (analysis info r) = "maintenance"
                 /\ SubmoduleAnalysis.breaking_changes (analysis info r) = false).
  { intros E. rewrite E, analyze_no_commits in Hrisk.
    injection Hrisk as -> -> ->. auto. }
  destruct Hcases as [(Hwhy & Hc & Hn)|(Hne & Hl & Hc & Hn)].
  - rewrite Hc, Hn in *. tauto.
  - tauto.
Qed.

End OneDescriptor.

Lemma no_commits_iff_witness :
  SubmoduleAnalysis.commits_count
    (analysis_of every_path failing_run Config.fallback core_update "c0") = 0.
Proof.
  apply (proj1 (no_commits_iff every_path failing_run Config.fallback
                  core_update "c0" eq_refl)).
  right. reflexivity.
Defined.

Lemma old_revision_resolution_witness :
  resolve_old_commit (fun _ => false) failing_run core_update = Some "c0".
Proof.
  apply (proj1 (old_revision_resolution (fun _ => false) failing_run
                  Config.fallback core_update));
    [reflexivity|discriminate|discriminate].
Defined.

(** ** The reviewer resolver *)

Lemma reviewers_fold_elem (cfg : Config.t) (x : string)
    (analyses : list SubmoduleAnalysis.t) (acc : gset string) :
  x ∈ fold_left
        (fun acc analysis =>
           acc ∪ list_to_set (reviewers_of cfg (SubmoduleAnalysis.name analysis)))
        analyses acc
  <-> x ∈ acc
      \/ exists a, In a analyses
                   /\ In x (reviewers_of cfg (SubmoduleAnalysis.name a)).
Proof.
  revert acc. induction analyses as [|a analyses IH]; intros acc; cbn [fold_left].
  - split; [auto|]. intros [H|(a & [] & _)]. exact H.
  - rewrite IH, elem_of_union, elem_of_list_to_set, list_elem_of_In. split.
    + intros [[H|H]|(b & Hb & Hx)]; [auto| |].
      * right. exists a. split; [now left|exact H].
      * right. exists b. split; [now right|exact Hx].
    + intros [H|(b & [<-|Hb] & Hx)]; [auto|auto|].
      right. exists b. auto.
Qed.

(** The resolver's two reads of the configuration, on the configuration. *)
Lemma reviewers_of_iff (cfg : Config.t) (name x : string) :
  In x (reviewers_of cfg name)
  <-> exists subs entry reviewers,
        Config.submodules cfg = Some subs
        /\ subs !! name = Some entry
        /\ Config.reviewers entry = Some reviewers
        /\ In x reviewers.
Proof.
  unfold reviewers_of, Config.submodule_config. split.
  - destruct (Config.submodules cfg) as [subs|]; cbn [default from_option id].
    + destruct (subs !! name) as [entry|] eqn:E; cbn [default from_option id].
      * destruct (Config.reviewers entry) as [reviewers|] eqn:Er;
          cbn [default from_option id]; [|intros []].
        intros Hx. exists subs, entry, reviewers. auto.
      * intros [].
    + rewrite lookup_empty. intros [].
  - intros (subs & entry & reviewers & -> & Hentry & Hr & Hx).
    cbn [default from_option id]. rewrite Hentry. cbn [default from_option id].
    now rewrite Hr.
Qed.

Lemma default_reviewers_iff (cfg : Config.t) (x : string) :
  In x (default [] (Config.default_reviewers cfg))
  <-> exists defaults,
        Config.default_reviewers cfg = Some defaults /\ In x defaults.
Proof.
  destruct (Config.default_reviewers cfg) as [defaults|];
    cbn [default from_option id]; split.
  - intros Hx. now exists defaults.
  - intros (d & Hd & Hx). now injection Hd as <-.
  - intros [].
  - intros (d & Hd & _). discriminate Hd.
Qed.

(** X12.  The suggested reviewers are exactly the people of the
    configuration's ["default_reviewers"] together with the people listed
    under ["reviewers"] in the ["submodules"] entry for the name of some
    analysis, each listed once; which analyses carry a name, how often, and
    in which order does not change who is listed. *)
Theorem suggested_reviewers_spec (cfg : Config.t)
    (analyses : list SubmoduleAnalysis.t) :
  (forall x,
      In x (_get_suggested_reviewers cfg analyses)
      <-> (exists defaults,
              Config.default_reviewers cfg = Some defaults /\ In x defaults)
          \/ (exists a subs entry reviewers,
                 In a analyses
                 /\ Config.submodules cfg = Some subs
                 /\ subs !! SubmoduleAnalysis.name a = Some entry
                 /\ Config.reviewers entry = Some reviewers
                 /\ In x reviewers))
  /\ NoDup (_get_suggested_reviewers cfg analyses)
  /\ (forall analyses',
         (forall n, In n (map SubmoduleAnalysis.name analyses)
                    <-> In n (map SubmoduleAnalysis.name analyses')) ->
         Permutation (_get_suggested_reviewers cfg analyses)
                     (_get_suggested_reviewers cfg analyses')).
Proof.
  assert (Hmem : forall l x,
             In x (_get_suggested_reviewers cfg l)
             <-> In x (default [] (Config.default_reviewers cfg))
                 \/ exists a, In a l
                              /\ In x (reviewers_of cfg (SubmoduleAnalysis.name a))).
  { intros l x. unfold _get_suggested_reviewers.
    rewrite <- list_elem_of_In, elem_of_elements, reviewers_fold_elem,
      elem_of_list_to_set, list_elem_of_In. reflexivity. }
  assert (Hnodup : forall l, NoDup (_get_suggested_reviewers cfg l)).
  { intros l. unfold _get_suggested_reviewers. apply NoDup_elements. }
  split; [|split; [apply Hnodup|]].
  - intros x. rewrite Hmem, default_reviewers_iff. split.
    + intros [H|(a & Ha & Hx)]; [now left|right].
      apply reviewers_of_iff in Hx as (subs & entry & reviewers & H1 & H2 & H3 & H4).
      exists a, subs, entry, reviewers. repeat split; assumption.
    + intros [H|(a & subs & entry & reviewers & Ha & H1 & H2 & H3 & H4)];
        [now left|right].
      exists a. split; [exact Ha|]. apply reviewers_of_iff.
      exists subs, entry, reviewers. repeat split; assumption.
  - intros analyses' Hnames.
    apply NoDup_Permutation; [apply Hnodup|apply Hnodup|].
    intros x. rewrite !list_elem_of_In, !Hmem.
    assert (Hsame : forall l l',
               (forall n, In n (map SubmoduleAnalysis.name l)
                          -> In n (map SubmoduleAnalysis.name l')) ->
               (exists a, In a l
                          /\ In x (reviewers_of cfg (SubmoduleAnalysis.name a)))
               -> exists a, In a l'
                            /\ In x (reviewers_of cfg (SubmoduleAnalysis.name a))).
    { intros l l' Hsub (a & Ha & Hx).
      assert (In (SubmoduleAnalysis.name a) (map SubmoduleAnalysis.name l')) as Hin
        by (apply Hsub, in_map, Ha).
      apply in_map_iff in Hin as (b & Hb & Hbin).
      exists b. split; [exact Hbin|now rewrite Hb]. }
    split; (intros [H|H]; [now left|right]).
    + apply (Hsame analyses analyses'); [apply Hnames|exact H].
    + apply (Hsame analyses' analyses); [apply Hnames|exact H].
Qed.

(** Under [reviewed_policy] an update of [core] alone suggests [alice], who
    is listed for [core], and the default reviewer [remr11]. *)
Lemma suggested_reviewers_spec_witness :
  In "alice" (_get_suggested_reviewers reviewed_policy [analysis_named "core"])
  /\ In "remr11" (_get_suggested_reviewers reviewed_policy [analysis_named "core"]).
Proof.
  split.
  - apply (proj2 (proj1 (suggested_reviewers_spec reviewed_policy
                           [analysis_named "core"]) "alice")).
    right.
    exists (analysis_named "core"),
           {[ "core" := Config.mk_submodule (Some ["alice"; "bob"]) None None;
              "docs" := Config.mk_submodule (Some ["bob"]) None None ]},
           (Config.mk_submodule (Some ["alice"; "bob"]) None None),
           ["alice"; "bob"].
    split; [left; reflexivity|]. split; [reflexivity|].
    split; [apply lookup_insert_eq|]. split; [reflexivity|].
    left. reflexivity.
  - apply (proj2 (proj1 (suggested_reviewers_spec reviewed_policy
                           [analysis_named "core"]) "remr11")).
    left. exists ["remr11"]. split; [reflexivity|]. left. reflexivity.
Defined.

(** ** The composed report *)

Lemma title_marker (submodules : list SubmoduleAnalysis.t) (total : nat) :
  Py.startswith "💥 " (pr_title_of submodules total) = any_breaking submodules.
Proof.
  unfold pr_title_of, any_breaking.
  destruct submodules as [|s [|s' rest]].
  - reflexivity.
  - cbn [existsb]. now destruct (SubmoduleAnalysis.breaking_changes s).
  - now destruct (existsb _ (s :: s' :: rest)).
Qed.

Lemma breaking_count_pos (analyses : list SubmoduleAnalysis.t) :
  (0 <? breaking_count_of analyses) = any_breaking analyses.
Proof.
  unfold breaking_count_of, any_breaking.
  induction analyses as [|a analyses IH]; [reflexivity|].
  cbn [List.filter existsb].
  destruct (SubmoduleAnalysis.breaking_changes a); [reflexivity|exact IH].
Qed.

Lemma summary_marker (analyses : list SubmoduleAnalysis.t) (total : nat) :
  Py.startswith "🚨" (summary_of analyses total) = any_breaking analyses
  /\ Py.startswith "✅" (summary_of analyses total) = negb (any_breaking analyses).
Proof.
  unfold summary_of. cbv zeta. rewrite breaking_count_pos.
  now destruct (any_breaking analyses).
Qed.

Lemma recent_commits_no_critical (commits : list CommitInfo.t) :
  Forall (fun line => is_critical_item line = false)
         (recent_commits_lines commits).
Proof.
  destruct commits as [|c cs]; [constructor|].
  rewrite recent_commits_lines_spec.
  constructor; [reflexivity|]. apply Forall_app. split.
  - apply List.Forall_forall. intros line Hin.
    apply in_map_iff in Hin as (x & <- & _). reflexivity.
  - destruct (5 <? length (c :: cs)); repeat constructor.
Qed.

Lemma submodule_lines_no_critical (a : SubmoduleAnalysis.t) (lines : list string) :
  submodule_lines a = Some lines ->
  Forall (fun line => is_critical_item line = false) lines.
Proof.
  unfold submodule_lines.
  destruct (risk_emoji_table !! SubmoduleAnalysis.risk_level a) as [r|];
    [|discriminate].
  destruct (change_emoji_table !! SubmoduleAnalysis.change_type a) as [c|];
    [|discriminate].
  cbn [mbind option_bind]. intros H. injection H as <-.
  repeat (apply Forall_cons; split; [reflexivity|]).
  apply Forall_app. split.
  { destruct (SubmoduleAnalysis.breaking_changes a); repeat constructor. }
  apply Forall_app. split; [apply recent_commits_no_critical|].
  repeat constructor.
Qed.

Lemma blocks_no_critical (submodules : list SubmoduleAnalysis.t)
                         (blocks : list (list string)) :
  mapM submodule_lines submodules = Some blocks ->
  Forall (fun line => is_critical_item line = false) (concat blocks).
Proof.
  intros H. apply mapM_Some_1 in H.
  induction H as [|a lines submodules blocks Ha _ IH]; [constructor|].
  cbn [concat]. apply Forall_app. split; [|exact IH].
  now apply (submodule_lines_no_critical a).
Qed.

(** The critical item is among the parts of the body exactly when some
    submodule is breaking. *)
Lemma critical_item_iff (result : AnalysisResult.t) (parts : list string) :
  body_parts_of result = Some parts ->
  In critical_item parts
  <-> any_breaking (AnalysisResult.submodules result) = true.
Proof.
  unfold body_parts_of.
  destruct (mapM submodule_lines (AnalysisResult.submodules result))
    as [blocks|] eqn:E; [|discriminate].
  cbn [mbind option_bind]. intros H. injection H as <-.
  pose proof (blocks_no_critical _ _ E) as Hblocks.
  rewrite List.Forall_forall in Hblocks.
  cbn [In]. rewrite !in_app_iff. cbn [In]. rewrite !in_app_iff. cbn [In].
  split.
  - intros H.
    repeat match type of H with
      | _ \/ _ => destruct H as [H|H]
      end;
      try (apply (f_equal is_critical_item) in H;
           change (false = true) in H; discriminate H);
      try (specialize (Hblocks _ H); discriminate Hblocks);
      try contradiction.
    destruct (any_breaking _); [reflexivity|destruct H].
  - intros ->. do 8 right. left. left. reflexivity.
Qed.

(** A part is a substring of the joined text. *)
Lemma part_in_join (sep x : string) (parts : list string) :
  In x parts -> Py.contains x (Py.join sep parts) = true.
Proof.
  intros Hin. apply PyMore.contains_spec.
  induction parts as [|y rest IH]; [destruct Hin|].
  destruct rest as [|z rest].
  - destruct Hin as [->|[]]. exists "", "". change (x = x +:+ "").
    clear. induction x as [|c x IHx]; [reflexivity|].
    rewrite PyMore.append_cons. now rewrite <- IHx.
  - rewrite PySplit.join_cons. destruct Hin as [->|Hin].
    + exists "", (sep +:+ Py.join sep (z :: rest)). reflexivity.
    + destruct (IH Hin) as (pre & post & ->).
      exists (y +:+ sep +:+ pre), post.
      now rewrite !PyMore.append_assoc.
Qed.

Section WholeRun.

Variable path_exists : string -> bool.
Variable subprocess_run : list string -> string -> option string.
Variable cfg : Config.t.

Local Abbreviation opt := (analysis_opt path_exists subprocess_run cfg).
Local Abbreviation analyze :=
  (analyze_submodules path_exists subprocess_run cfg).

(** Every field of the result of a run. *)
Lemma analyze_submodules_fields (infos : list SubmoduleInfo.t) :
  let analyses := omap opt infos in
  let total := sum_list_with SubmoduleAnalysis.commits_count analyses in
  exists parts,
    body_parts_of
      (AnalysisResult.mk (summary_of analyses total) analyses total
                         (overall_risk_of analyses)
                         (_get_suggested_reviewers cfg analyses) "" "")
    = Some parts
    /\ analyze infos
       = Some (AnalysisResult.mk
                 (summary_of analyses total) analyses total
                 (overall_risk_of analyses)
                 (_get_suggested_reviewers cfg analyses)
                 (pr_title_of analyses total) (Py.join nl parts)).
Proof.
  cbv zeta. unfold analyze_submodules. rewrite agg_loop_spec.
  cbn [submodule_analyses total_commits].
  pose proof (agg_loop_badges path_exists subprocess_run cfg infos) as Hb.
  rewrite agg_loop_spec in Hb. cbn [submodule_analyses] in Hb.
  unfold _generate_pr_content, body_parts_of.
  cbn [AnalysisResult.submodules AnalysisResult.summary
       AnalysisResult.total_commits AnalysisResult.overall_risk
       AnalysisResult.suggested_reviewers].
  destruct (mapM_is_Some_2 submodule_lines (omap opt infos)) as [blocks ->].
  { eapply Forall_impl; [exact Hb|].
    intros a [Hr Hc]. now apply submodule_lines_known. }
  cbn [mbind option_bind]. eexists. split; reflexivity.
Qed.

(** X13.  Breaking changes are reported consistently: the title starts
    with the collision sign and the summary with the siren, and the critical
    checklist item is one of the parts the body is joined from, each exactly
    when some analysis of the run has the breaking flag.  In that case the
    joined body contains the item and the overall risk is "high"; otherwise
    the summary starts with the check mark. *)
Theorem breaking_reported_everywhere (infos : list SubmoduleInfo.t) :
  exists result parts,
    analyze infos = Some result
    /\ body_parts_of result = Some parts
    /\ AnalysisResult.pr_body result = Py.join nl parts
    /\ let breaking := any_breaking (AnalysisResult.submodules result) in
       Py.startswith "💥 " (AnalysisResult.pr_title result) = breaking
       /\ Py.startswith "🚨" (AnalysisResult.summary result) = breaking
       /\ Py.startswith "✅" (AnalysisResult.summary result) = negb breaking
       /\ (In critical_item parts <-> breaking = true)
       /\ (breaking = false
           \/ Py.contains critical_item (AnalysisResult.pr_body result) = true)
       /\ (breaking = false \/ AnalysisResult.overall_risk result = "high").
Proof.
  destruct (analyze_submodules_fields infos) as (parts & Hparts & Hres).
  cbv zeta in Hparts, Hres.
  eexists. exists parts. split; [exact Hres|].
  split; [exact Hparts|]. split; [reflexivity|].
  cbv zeta.
  cbn [AnalysisResult.submodules AnalysisResult.summary AnalysisResult.pr_title
       AnalysisResult.overall_risk AnalysisResult.pr_body].
  pose proof (critical_item_iff _ _ Hparts) as Hitem.
  cbn [AnalysisResult.submodules] in Hitem.
  split; [apply title_marker|].
  split; [apply summary_marker|]. split; [apply summary_marker|].
  split; [exact Hitem|]. split.
  - destruct (any_breaking (omap opt infos)); [right|now left].
    apply part_in_join, Hitem. reflexivity.
  - unfold overall_risk_of, any_breaking.
    destruct (existsb _ (omap opt infos)); auto.
Qed.

(** X14.  Composing again from the result of a run gives the title and the
    body the result already holds: the composer reads neither of them. *)
Theorem composer_reproduces_report (infos : list SubmoduleInfo.t) :
  exists result,
    analyze infos = Some result
    /\ _generate_pr_content result
       = Some (AnalysisResult.pr_title result, AnalysisResult.pr_body result).
Proof.
  destruct (analyze_submodules_fields infos) as (parts & Hparts & Hres).
  cbv zeta in Hparts, Hres.
  eexists. split; [exact Hres|].
  unfold _generate_pr_content.
  change (body_parts_of _) with
    (body_parts_of
       (AnalysisResult.mk
          (summary_of (omap opt infos)
             (sum_list_with SubmoduleAnalysis.commits_count (omap opt infos)))
          (omap opt infos)
          (sum_list_with SubmoduleAnalysis.commits_count (omap opt infos))
          (overall_risk_of (omap opt infos))
          (_get_suggested_reviewers cfg (omap opt infos)) "" "")).
  rewrite Hparts. reflexivity.
Qed.

(** X15.  The analyses of a run follow the descriptors whose old revision
    could be determined, in their order, one analysis per such descriptor:
    same paths, names derived from the paths, new revisions cut to 8
    characters. *)
Theorem analyses_follow_descriptors (infos : list SubmoduleInfo.t) :
  exists result,
    analyze infos = Some result
    /\ let kept := List.filter (resolvable path_exists subprocess_run) infos in
       map SubmoduleAnalysis.path (AnalysisResult.submodules result)
       = map SubmoduleInfo.path kept
       /\ map SubmoduleAnalysis.name (AnalysisResult.submodules result)
          = map (fun info => Py.path_name (SubmoduleInfo.path info)) kept
       /\ map SubmoduleAnalysis.new_commit (AnalysisResult.submodules result)
          = map (fun info => Py.slice_to 8 (SubmoduleInfo.new_commit info)) kept
       /\ length (AnalysisResult.submodules result) = length kept
       /\ length (AnalysisResult.submodules result) <= length infos.
Proof.
  destruct (analyze_submodules_fields infos) as (parts & _ & Hres).
  cbv zeta in Hres. eexists. split; [exact Hres|].
  cbv zeta. cbn [AnalysisResult.submodules].
  assert (Hone : forall info r,
             let a := analysis_of path_exists subprocess_run cfg info r in
             SubmoduleAnalysis.path a = SubmoduleInfo.path info
             /\ SubmoduleAnalysis.name a = Py.path_name (SubmoduleInfo.path info)
             /\ SubmoduleAnalysis.new_commit a
                = Py.slice_to 8 (SubmoduleInfo.new_commit info)).
  { intros info r. cbv zeta. unfold analysis_of.
    destruct (collect_commits _ _ _ _ _) as [cs n]. cbn. auto. }
  assert (Hcons : forall info rest,
             omap opt (info :: rest)
             = match resolve_old_commit path_exists subprocess_run info with
               | Some r => analysis_of path_exists subprocess_run cfg info r
                           :: omap opt rest
               | None => omap opt rest
               end
             /\ List.filter (resolvable path_exists subprocess_run) (info :: rest)
                = match resolve_old_commit path_exists subprocess_run info with
                  | Some _ => info :: List.filter
                                        (resolvable path_exists subprocess_run) rest
                  | None => List.filter (resolvable path_exists subprocess_run) rest
                  end).
  { intros info rest. cbn [omap list_omap List.filter].
    unfold analysis_opt at 1, resolvable at 1.
    now destruct (resolve_old_commit path_exists subprocess_run info). }
  clear Hres. induction infos as [|info rest IH].
  - cbn. repeat split; lia.
  - destruct (Hcons info rest) as [-> ->].
    destruct IH as (IH1 & IH2 & IH3 & IH4 & IH5).
    destruct (resolve_old_commit path_exists subprocess_run info) as [r|].
    + destruct (Hone info r) as (H1 & H2 & H3).
      cbn [map length]. rewrite H1, H2, H3, IH1, IH2, IH3, IH4.
      repeat split. lia.
    + rewrite IH1, IH2, IH3, IH4. repeat split. cbn [length]. lia.
Qed.

End WholeRun.

(** ** The list of commits in the body *)

(** The examined commits of an analysis: at most 10, and no more than are
    counted. *)
Lemma analysis_commits_bounds (path_exists : string -> bool)
    (subprocess_run : list string -> string -> option string)
    (cfg : Config.t) (info : SubmoduleInfo.t) (old_commit : string) :
  let a := analysis_of path_exists subprocess_run cfg info old_commit in
  length (SubmoduleAnalysis.commits a) <= 10
  /\ length (SubmoduleAnalysis.commits a) <= SubmoduleAnalysis.commits_count a.
Proof.
  cbv zeta.
  destruct (analysis_of_fields path_exists subprocess_run cfg info old_commit)
    as (Hcommits & Hcount & _).
  cbv zeta in Hcommits, Hcount. rewrite Hcommits, Hcount.
  unfold collect_commits.
  destruct (Py.truthy old_commit && negb (String.eqb old_commit _));
    cbn [fst snd length]; [|lia].
  rewrite length_map.
  split; [apply non_blank_take_bound|apply non_blank_take_le].
Qed.

(** X16.  For an analysis of the aggregator the body lists the first
    [min 5 n] of the [n] examined commits and notes [n - 5] more; as at most
    10 commits are examined the note never announces more than 5, and when
    more than 10 commits are counted the listed and the announced commits
    together fall short of the count shown in the same block. *)
Theorem more_commits_note_capped (path_exists : string -> bool)
    (subprocess_run : list string -> string -> option string)
    (cfg : Config.t) (info : SubmoduleInfo.t) (old_commit : string) :
  let a := analysis_of path_exists subprocess_run cfg info old_commit in
  let commits := SubmoduleAnalysis.commits a in
  let noted := length commits - 5 in
  recent_commits_lines commits
  = match commits with
    | [] => []
    | _ :: _ =>
        (nl +:+ "**Recent commits**:")
        :: map commit_line (take 5 commits)
        ++ (if 0 <? noted then [more_commits_note noted] else [])
    end
  /\ length (take 5 commits) = Nat.min 5 (length commits)
  /\ noted <= 5
  /\ length (recent_commits_lines commits) <= 7
  /\ (10 < SubmoduleAnalysis.commits_count a ->
      length (take 5 commits) + noted < SubmoduleAnalysis.commits_count a).
Proof.
  cbv zeta.
  destruct (analysis_commits_bounds path_exists subprocess_run cfg info old_commit)
    as (Hten & Hle).
  set (commits := SubmoduleAnalysis.commits _) in *. clearbody commits.
  assert (Hlines : recent_commits_lines commits
                   = match commits with
                     | [] => []
                     | _ :: _ =>
                         (nl +:+ "**Recent commits**:")
                         :: map commit_line (take 5 commits)
                         ++ (if 0 <? length commits - 5
                             then [more_commits_note (length commits - 5)]
                             else [])
                     end).
  { destruct commits as [|c cs]; [reflexivity|].
    rewrite recent_commits_lines_spec. unfold more_commits_note.
    destruct (Nat.ltb_spec 5 (length (c :: cs))),
             (Nat.ltb_spec 0 (length (c :: cs) - 5)); try reflexivity; lia. }
  split; [exact Hlines|].
  split; [apply length_take|]. split; [lia|]. split.
  - rewrite Hlines. destruct commits as [|c cs]; [cbn; lia|].
    cbn [length]. rewrite length_app, length_map, length_take.
    destruct (0 <? _); cbn [length]; lia.
  - intros Hmany. rewrite length_take. lia.
Qed.

(** Twelve commits in the range: five listed, five announced. *)
Lemma more_commits_note_capped_witness :
  length (take 5 (SubmoduleAnalysis.commits
                    (analysis_of every_path (history_run twelve_ids)
                                 Config.fallback core_update "c0")))
  + (length (SubmoduleAnalysis.commits
               (analysis_of every_path (history_run twelve_ids)
                            Config.fallback core_update "c0")) - 5)
  < SubmoduleAnalysis.commits_count
      (analysis_of every_path (history_run twelve_ids)
                   Config.fallback core_update "c0").
Proof.
  apply (more_commits_note_capped every_path (history_run twelve_ids)
           Config.fallback core_update "c0").
  vm_compute. lia.
Defined.

(** ** Commit totals (C4) *)

Lemma non_blank_ids (ids : list string) :
  Forall (fun id => is_commit_id id = true) ids -> non_blank ids = ids.
Proof.
  unfold non_blank. induction 1 as [|id ids Hid _ IH]; [reflexivity|].
  cbn [List.filter]. unfold is_commit_id in Hid.
  apply andb_true_iff in Hid as [-> _]. now rewrite IH.
Qed.

Lemma take_ids (n : nat) (ids : list string) :
  Forall (fun id => is_commit_id id = true) ids ->
  Forall (fun id => is_commit_id id = true) (take n ids).
Proof.
  intros H. revert n. induction H as [|id ids Hid _ IH]; intros [|n];
    cbn; constructor; auto.
Qed.

(** The lines of an output that lists identifiers, one per line. *)
Lemma split_listed_ids (ids : list string) :
  Forall (fun id => is_commit_id id = true) ids ->
  non_blank (Py.split Py.LF (Py.join nl ids)) = ids
  /\ non_blank (take 10 (Py.split Py.LF (Py.join nl ids))) = take 10 ids.
Proof.
  intros Hids. destruct ids as [|id ids]; [split; reflexivity|].
  unfold nl. rewrite PySplit.split_join.
  - split; [now apply non_blank_ids|now apply non_blank_ids, take_ids].
  - discriminate.
  - eapply Forall_impl; [exact Hids|].
    intros x Hx. unfold is_commit_id in Hx.
    apply andb_true_iff in Hx as [_ Hx]. now apply negb_true_iff in Hx.
Qed.

(** C4: the result's [total_commits] is the sum of the [commits_count] of
    its analyses.  Each [commits_count] counts every identifier the query
    [git rev-list --reverse old..new] prints, while [commits] holds the
    records of the identifiers among the first 10 lines only, and the
    classifier is run on these records. *)
Theorem C4_total_commits (path_exists : string -> bool)
    (subprocess_run : list string -> string -> option string)
    (cfg : Config.t) (infos : list SubmoduleInfo.t) :
  (exists result,
      analyze_submodules path_exists subprocess_run cfg infos = Some result
      /\ AnalysisResult.total_commits result
         = sum_list_with SubmoduleAnalysis.commits_count
                         (AnalysisResult.submodules result)
      /\ AnalysisResult.submodules result
         = omap (analysis_opt path_exists subprocess_run cfg) infos)
  /\ (forall (info : SubmoduleInfo.t) (old_commit : string),
         let a := analysis_of path_exists subprocess_run cfg info old_commit in
         let path := SubmoduleInfo.path info in
         let new_commit := SubmoduleInfo.new_commit info in
         let ranged :=
           Py.truthy old_commit && negb (String.eqb old_commit new_commit) in
         let listed :=
           _run_git_command path_exists subprocess_run
             ["git"; "rev-list"; "--reverse"; old_commit +:+ ".." +:+ new_commit]
             path in
         let record commit_hash :=
           _get_commit_info path_exists subprocess_run (Py.strip commit_hash)
                            path in
         SubmoduleAnalysis.commits_count a
         = (if ranged then length (non_blank (Py.split Py.LF listed)) else 0)
         /\ SubmoduleAnalysis.commits a
            = (if ranged
               then map record (non_blank (take 10 (Py.split Py.LF listed)))
               else [])
         /\ length (SubmoduleAnalysis.commits a) <= 10
         /\ length (SubmoduleAnalysis.commits a) <= SubmoduleAnalysis.commits_count a
         /\ (SubmoduleAnalysis.risk_level a, SubmoduleAnalysis.change_type a,
             SubmoduleAnalysis.breaking_changes a)
            = _analyze_risk_level cfg (SubmoduleAnalysis.commits a)
                                  (SubmoduleAnalysis.name a)
         /\ (forall ids : list string,
                ranged = true ->
                listed = Py.join nl ids ->
                Forall (fun id => is_commit_id id = true) ids ->
                SubmoduleAnalysis.commits_count a = length ids
                /\ SubmoduleAnalysis.commits a = map record (take 10 ids))).
Proof.
  split.
  - destruct (analyze_submodules_total path_exists subprocess_run cfg infos)
      as (result & Hres & Hsub & Htot & _).
    exists result. rewrite Htot, Hsub, agg_loop_spec. cbn. auto.
  - intros info old_commit. cbv zeta.
    destruct (analysis_of_fields path_exists subprocess_run cfg info old_commit)
      as (Hcommits & Hcount & _ & Hrisk).
    cbv zeta in Hcommits, Hcount.
    rewrite Hrisk, Hcommits, Hcount. unfold collect_commits, commit_hashes_of.
    destruct (Py.truthy old_commit && negb (String.eqb old_commit _));
      cbn [fst snd length].
    + rewrite length_map.
      split; [reflexivity|]. split; [reflexivity|].
      split; [apply non_blank_take_bound|].
      split; [apply non_blank_take_le|]. split; [reflexivity|].
      intros ids _ Hlisted Hids. rewrite Hlisted.
      destruct (split_listed_ids ids Hids) as [-> ->]. auto.
    + repeat split; try lia; try discriminate.
Qed.

(** Twelve identifiers in the range: the count is 12, the records are those
    of the first ten. *)
Lemma C4_total_commits_witness :
  let a := analysis_of every_path (history_run twelve_ids) Config.fallback
                       core_update "c0" in
  SubmoduleAnalysis.commits_count a = 12
  /\ map CommitInfo.hash (SubmoduleAnalysis.commits a)
     = ["c01"; "c02"; "c03"; "c04"; "c05"; "c06"; "c07"; "c08"; "c09"; "c10"].
Proof.
  cbv zeta.
  destruct (proj2 (C4_total_commits every_path (history_run twelve_ids)
                     Config.fallback [core_update]) core_update "c0")
    as (_ & _ & _ & _ & _ & Hids).
  destruct (Hids twelve_ids) as [Hcount Hcommits].
  - vm_compute. reflexivity.
  - vm_compute. reflexivity.
  - repeat constructor.
  - rewrite Hcount, Hcommits. split; vm_compute; reflexivity.
Defined.

(** ** Case handling of patterns and keywords (C10) *)

Lemma risk_step_with_lower (patterns high medium : list string)
                           (st : risk_state) (c : CommitInfo.t) :
  risk_step_with Py.lower patterns high medium st c
  = risk_step patterns high medium st c.
Proof. reflexivity. Qed.


Section CaseHandling.

(** [str.lower], of which only this is used: no ASCII capital letter is
    left in what it returns. *)
Variable lower : string -> string.
Hypothesis lower_leaves_no_capital :
  forall (s : string) (c : ascii),
    In c (Py.chars (lower s)) -> Py.isupper c = false.




End CaseHandling.

